(** * A shallow embedding of the segment-display clock (clock.py, smallclock.py)

    The development follows the two Python programs of the repository:
    the settings record with its load/save, the HT16K33 display driver in
    its 14-segment (clock.py) and 7-segment (smallclock.py) variants, the
    clock renderer, and the menu state machine of clock.py that is driven
    by a queue of input events.

    What the program does to the outside is kept as a trace of effects (bus
    writes, sleeps, file dumps, calls of outside tools); what it reads from
    the outside (the queue, the clocks, the settings file, the answers of
    nmcli and ip) is an argument.  A bus transaction is taken to succeed.
    The producer thread of the queue, the interrupt handler around the main
    loop, and the main loop of smallclock.py with its floating-point
    estimate of darkness are not part of the embedding. *)

From Stdlib Require Import ZArith NArith List String Ascii Bool Lia DecimalString.
From stdpp Require Import base list.
Import ListNotations.

#[local] Open Scope Z_scope.

(** ** Python values *)

(** A Python [str] is a sequence of Unicode code points.  The tables of
    clock.py hold the arrows U+2191 and U+2193, which do not fit a byte, so
    a character is its code point. *)
Definition char : Type := N.
Definition pystr : Type := list char.

Definition ch (a : ascii) : char := N_of_ascii a.
Definition py (s : string) : pystr := map ch (list_ascii_of_string s).

Definition quote : char := 34%N.        (* the double quote character *)
Definition uparrow : char := 8593%N.    (* U+2191 *)
Definition downarrow : char := 8595%N.  (* U+2193 *)

Definition pystr_eqb (a b : pystr) : bool := bool_decide (a = b).

(** [d.get(k, default)] on a dict literal, kept as the ordered list of its
    items (Python dicts keep insertion order, which [set_wifi] relies on). *)
Fixpoint dict_get {V : Type} (d : list (char * V)) (k : char) (default : V) : V :=
  match d with
  | [] => default
  | (k', v) :: d' => if N.eqb k' k then v else dict_get d' k default
  end.

(** [l[i]] on a Python list: negative indices count from the end, anything
    outside [-len, len) raises IndexError ([None]). *)
Definition py_index {A : Type} (l : list A) (i : Z) : option A :=
  let n := Z.of_nat (length l) in
  if (0 <=? i) && (i <? n) then l !! Z.to_nat i
  else if (- n <=? i) && (i <? 0) then l !! Z.to_nat (n + i)
  else None.

(** [text[i:j]] for [0 <= i <= j]. *)
Definition slice {A : Type} (l : list A) (i j : nat) : list A :=
  take (j - i) (drop i l).

(** ** ClockSettings *)

Record ClockSettings := {
  brightness : Z;
  timezone : pystr;
  hour_24 : bool;
  flash_colon : bool
}.

(** The values [__init__] assigns before it calls [load]. *)
Definition default_settings : ClockSettings :=
  {| brightness := 0; timezone := py "America/Chicago";
     hour_24 := false; flash_colon := true |}.

Definition with_brightness (b : Z) (s : ClockSettings) : ClockSettings :=
  {| brightness := b; timezone := timezone s;
     hour_24 := hour_24 s; flash_colon := flash_colon s |}.
Definition with_timezone (tz : pystr) (s : ClockSettings) : ClockSettings :=
  {| brightness := brightness s; timezone := tz;
     hour_24 := hour_24 s; flash_colon := flash_colon s |}.
Definition with_hour_24 (b : bool) (s : ClockSettings) : ClockSettings :=
  {| brightness := brightness s; timezone := timezone s;
     hour_24 := b; flash_colon := flash_colon s |}.
Definition with_flash_colon (b : bool) (s : ClockSettings) : ClockSettings :=
  {| brightness := brightness s; timezone := timezone s;
     hour_24 := hour_24 s; flash_colon := b |}.

(** What [json.load] makes of the settings file.  [Unparseable] stands for
    every way the [try] block of [load] raises before a field is assigned:
    the file cannot be read, it is not JSON, or the document is not an
    object (so that [data.get] raises).  [Object] is a JSON object in which
    each of the four keys is absent or holds a value of the type that
    [save] writes. *)
Inductive json_file :=
| Unparseable
| Object (o_brightness : option Z) (o_timezone : option pystr)
         (o_hour_24 : option bool) (o_flash_colon : option bool).

(** The settings file on disk: absent or present, and whether
    [open(filename, "w")] succeeds. *)
Record file_store := {
  content : option json_file;
  writable : bool
}.

(** The document [save] dumps. *)
Definition dumped (s : ClockSettings) : json_file :=
  Object (Some (brightness s)) (Some (timezone s))
         (Some (hour_24 s)) (Some (flash_colon s)).

(** Observable effects of the program, in the order they happen. *)
Inductive effect :=
| I2CWriteByte (bus address value : Z)
| I2CWriteBlock (bus address register : Z) (data : list Z)
| Sleep (ms : Z)                    (* time.sleep, in milliseconds *)
| SleepToNextSecond                 (* time.sleep(1 - now % 1) *)
| FileDump (doc : json_file)        (* open(filename, "w") and json.dump *)
| Run (argv : list pystr).          (* subprocess.run *)

(** [save]: the write is attempted; when [open] raises, the exception is
    caught and reported, and the file stays as it was. *)
Definition save (s : ClockSettings) (fs : file_store) : file_store * list effect :=
  (if writable fs then {| content := Some (dumped s); writable := true |} else fs,
   [FileDump (dumped s)]).

Definition load (s : ClockSettings) (fs : file_store)
  : ClockSettings * file_store * list effect :=
  match content fs with
  | Some (Object b tz h f) =>
      ({| brightness := default 0 b;
          timezone := default (py "America/Chicago") tz;
          hour_24 := default false h;
          flash_colon := default true f |}, fs, [])
  | Some Unparseable => let '(fs', out) := save s fs in (s, fs', out)
  | None => let '(fs', out) := save s fs in (s, fs', out)
  end.

(** [ClockSettings()]: the constructor. *)
Definition ClockSettings_init (fs : file_store)
  : ClockSettings * file_store * list effect :=
  load default_settings fs.

Definition increase_brightness (s : ClockSettings) : ClockSettings :=
  let b := brightness s + 1 in
  with_brightness (if 15 <? b then 15 else b) s.

Definition decrease_brightness (s : ClockSettings) : ClockSettings :=
  let b := brightness s - 1 in
  with_brightness (if b <? 0 then 0 else b) s.

(** ** Display: the HT16K33 driver *)

(** The attributes of a [Display] object.  [scroll_delay] is kept in
    milliseconds; [double_mid_chars] is stored by clock.py and never read. *)
Record Display := {
  bus : Z;
  address : Z;
  scroll_delay : Z;
  colon : bool
}.

Definition with_colon (c : bool) (d : Display) : Display :=
  {| bus := bus d; address := address d;
     scroll_delay := scroll_delay d; colon := c |}.

(** [enumerate(s)] *)
Definition enumerate {A : Type} (l : list A) : list (nat * A) :=
  zip (seq 0 (length l)) l.

(** The frame every [_write_four_chars] starts from: [[0x00] + [0x00] * 16]. *)
Definition blank_frame : list Z := 0 :: replicate 16 0.

(** The 14-segment display of clock.py. *)
Module Seg14.

Definition _DIG_BASE : list nat := [0; 2; 4; 6]%nat.

Definition _SEG14 : list (char * Z) :=
  [ (ch " ", 0x0000); (ch "-", 0x00C0); (ch "[", 0x0039); (ch "]", 0x000F);
    (ch "_", 0x0008);
    (ch "0", 0x003F); (ch "1", 0x0006); (ch "2", 0x00DB); (ch "3", 0x00CF);
    (ch "4", 0x00E6); (ch "5", 0x00ED); (ch "6", 0x00FD); (ch "7", 0x0007);
    (ch "8", 0x00FF); (ch "9", 0x00EF);
    (ch "!", 0x4002); (ch "@", 0x02BB); (ch "#", 0x12F8); (ch "$", 0x12ED);
    (ch "%", 0x0C24); (ch "^", 0x0120); (ch "&", 0x235D); (ch "*", 0x3FC0);
    (ch "(", 0x2400); (ch ")", 0x0900); (ch ",", 0x0800); (ch ".", 0x4000);
    (ch "?", 0x60A3); (ch "/", 0x0C00); (ch "\", 0x2100); (ch "~", 0x0100);
    (ch "=", 0x00C8); (ch "+", 0x12C0); (ch "{", 0x0949); (ch "}", 0x2489);
    (ch "|", 0x1200); (ch "<", 0x0480); (ch ">", 0x0140); (ch ":", 0x0030);
    (ch ";", 0x0A00); (ch "'", 0x0020); (quote, 0x0220);
    (uparrow, 0x3800); (downarrow, 0x0700);
    (ch "A", 0x00F7); (ch "a", 0x00DF);
    (ch "B", 0x2479); (ch "b", 0x00FC);
    (ch "C", 0x0039); (ch "c", 0x00D8);
    (ch "D", 0x0930); (ch "d", 0x00DE);
    (ch "E", 0x0079); (ch "e", 0x00FB);
    (ch "F", 0x00F1); (ch "f", 0x0071);
    (ch "G", 0x00BD); (ch "g", 0x00EF);
    (ch "H", 0x00F6); (ch "h", 0x00F4);
    (ch "I", 0x1209); (ch "i", 0x1200);
    (ch "J", 0x001E); (ch "j", 0x001E);
    (ch "K", 0x2470); (ch "k", 0x2470);
    (ch "L", 0x0038); (ch "l", 0x0018);
    (ch "M", 0x0536); (ch "m", 0x0536);
    (ch "N", 0x2136); (ch "n", 0x00D4);
    (ch "O", 0x003F); (ch "o", 0x00DC);
    (ch "P", 0x00F3); (ch "p", 0x00F3);
    (ch "Q", 0x203F); (ch "q", 0x20E3);
    (ch "R", 0x20F3); (ch "r", 0x0050);
    (ch "S", 0x00ED); (ch "s", 0x00ED);
    (ch "T", 0x1201); (ch "t", 0x12C0);
    (ch "U", 0x003E); (ch "u", 0x001C);
    (ch "V", 0x0C30); (ch "v", 0x0810);
    (ch "W", 0x2836); (ch "w", 0x2814);
    (ch "X", 0x2D00); (ch "x", 0x2D00);
    (ch "Y", 0x1500); (ch "y", 0x1500);
    (ch "Z", 0x0C09); (ch "z", 0x0848) ].

(** Returns [(low_byte, high_byte)]. *)
Definition _encode_char_14seg (c : char) : Z * Z :=
  let val := dict_get _SEG14 c 0x0000 in
  (Z.land val 0xFF, Z.land (Z.shiftr val 8) 0xFF).

(** The frame built by the loop of [_write_four_chars]. *)
Definition build_frame (colon : bool) (s4 : pystr) : list Z :=
  fold_left
    (fun frame '(pos, c) =>
       let '(low, high) := _encode_char_14seg c in
       let high := if (pos =? 1)%nat && colon then Z.lor high 0x40 else high in
       let base := nth pos _DIG_BASE 0%nat in
       <[(1 + base + 1)%nat := high]> (<[(1 + base)%nat := low]> frame))
    (enumerate s4) blank_frame.

End Seg14.

(** The 7-segment display of smallclock.py. *)
Module Seg7.

Definition _DIG_ADDR : list nat := [0; 2; 6; 8]%nat.
Definition _COLON_ADDR : nat := 4%nat.

Definition _SEG7 : list (char * Z) :=
  [ (ch " ", 0x00); (ch "-", 0x40); (ch "_", 0x08);
    (ch "0", 0x3F); (ch "1", 0x06); (ch "2", 0x5B); (ch "3", 0x4F);
    (ch "4", 0x66); (ch "5", 0x6D); (ch "6", 0x7D); (ch "7", 0x07);
    (ch "8", 0x7F); (ch "9", 0x6F);
    (ch "A", 0x77); (ch "a", 0x5F);
    (ch "b", 0x7C); (ch "C", 0x39); (ch "c", 0x58);
    (ch "d", 0x5E); (ch "E", 0x79); (ch "e", 0x7B);
    (ch "F", 0x71); (ch "H", 0x76); (ch "h", 0x74);
    (ch "I", 0x06); (ch "i", 0x04); (ch "J", 0x1E);
    (ch "L", 0x38); (ch "n", 0x54); (ch "o", 0x5C);
    (ch "P", 0x73); (ch "r", 0x50); (ch "S", 0x6D);
    (ch "t", 0x78); (ch "U", 0x3E); (ch "Y", 0x6E);
    (ch "Z", 0x5B) ].

(** The argument is always a one-character [str] here, so the [int]
    branch of the source is not taken. *)
Definition _encode_char_7seg (c : char) : Z := dict_get _SEG7 c 0x00.

Definition build_frame (colon : bool) (s4 : pystr) : list Z :=
  let digits :=
    fold_left
      (fun frame '(pos, c) =>
         let glyph := _encode_char_7seg c in
         let addr := nth pos _DIG_ADDR 0%nat in
         <[(1 + addr)%nat := glyph]> frame)
      (enumerate s4) blank_frame in
  <[(1 + _COLON_ADDR)%nat := if colon then 0x02 else 0x00]> digits.

End Seg7.

(** The two [Display] classes differ in how [_write_four_chars] fills the
    frame from the colon flag and the four characters; everything else is
    the same code. *)
Class Driver := { frame_of : bool -> pystr -> list Z }.

#[export] Instance clock_driver : Driver := {| frame_of := Seg14.build_frame |}.
Definition smallclock_driver : Driver := {| frame_of := Seg7.build_frame |}.

Section DisplayMethods.
Context {drv : Driver}.

Definition clear (d : Display) : list effect :=
  [I2CWriteBlock (bus d) (address d) 0x00 (replicate 16 0x00)].

Definition set_brightness (d : Display) (level : Z) : list effect :=
  let level := Z.max 0 (Z.min 15 level) in
  [I2CWriteByte (bus d) (address d) (Z.lor 0xE0 level)].

Definition _init_hw (d : Display) (brightness : Z) : list effect :=
  [ I2CWriteByte (bus d) (address d) 0x21;
    I2CWriteByte (bus d) (address d) 0x81;
    I2CWriteByte (bus d) (address d) (Z.lor 0xE0 (Z.land brightness 0x0F)) ]
  ++ clear d.

(** [Display(bus, address, brightness, scroll_delay)] *)
Definition Display_init (bus address brightness scroll_delay : Z)
  : Display * list effect :=
  let d := {| bus := bus; address := address;
              scroll_delay := scroll_delay; colon := true |} in
  (d, _init_hw d brightness).

(** The one bus transaction of [_write_four_chars], for a string that
    was already padded and cut to four characters. *)
Definition frame_write (d : Display) (s4 : pystr) : effect :=
  let frame := frame_of (colon d) s4 in
  I2CWriteBlock (bus d) (address d) (hd 0 frame) (tl frame).

Definition _write_four_chars (d : Display) (s4 : pystr) : list effect :=
  let s4 := take 4 (s4 ++ py "    ") in
  [frame_write d s4].

(** [display(text)]; every caller passes a [str]. *)
Definition display (d : Display) (text : pystr) : list effect :=
  let n := length text in
  if (n <=? 4)%nat then _write_four_chars d text
  else
    flat_map
      (fun i =>
         _write_four_chars d (slice text i (i + 4))
         ++ (if (i <? n - 4)%nat then [Sleep (scroll_delay d)] else []))
      (seq 0 (n - 4 + 1)).

End DisplayMethods.

(** ** Exceptions *)

Inductive exn :=
| IndexError | ValueError | ZeroDivisionError | UnknownTimeZoneError | OSError.

Inductive result (A : Type) :=
| Ok (a : A)
| Raise (e : exn).
Arguments Ok {A} a.
Arguments Raise {A} e.

Definition bind {A B : Type} (r : result A) (k : A -> result B) : result B :=
  match r with
  | Ok a => k a
  | Raise e => Raise e
  end.

Notation "'let*' x ':=' e 'in' k" := (bind e (fun x => k))
  (at level 10, x pattern, e at level 100, k at level 200, only parsing).

Definition or_raise {A : Type} (e : exn) (o : option A) : result A :=
  match o with
  | Some a => Ok a
  | None => Raise e
  end.

(** [l[i]], raising IndexError. *)
Definition getitem {A : Type} (l : list A) (i : Z) : result A :=
  or_raise IndexError (py_index l i).

(** [l[i] = v], raising IndexError. *)
Definition setitem {A : Type} (l : list A) (i : Z) (v : A) : result (list A) :=
  let n := Z.of_nat (length l) in
  if (0 <=? i) && (i <? n) then Ok (<[Z.to_nat i := v]> l)
  else if (- n <=? i) && (i <? 0) then Ok (<[Z.to_nat (n + i) := v]> l)
  else Raise IndexError.

(** [a % b] on Python ints: the result has the sign of [b], as [Z.modulo]. *)
Definition py_mod (a b : Z) : result Z :=
  if b =? 0 then Raise ZeroDivisionError else Ok (a mod b).

(** [len(l)] *)
Definition len {A : Type} (l : list A) : Z := Z.of_nat (length l).

(** ** The clock renderer *)

(** The fields of [datetime.now(tz)] that [display_time] reads. *)
Record datetime := {
  hour : Z;
  minute : Z;
  second : Z
}.

(** [str(z)] for an int. *)
Definition str_int (z : Z) : pystr :=
  py (DecimalString.NilZero.string_of_int (Z.to_int z)).

(** [f"{z:2d}"]: right-aligned in width 2, padded with spaces. *)
Definition format_2d (z : Z) : pystr :=
  let s := str_int z in
  replicate (2 - length s) (ch " ") ++ s.

(** [f"{z:02d}"]: width 2, zeros between the sign and the digits. *)
Definition format_02d (z : Z) : pystr :=
  if z <? 0 then
    let s := str_int (- z) in
    ch "-" :: replicate (2 - 1 - length s) (ch "0") ++ s
  else
    let s := str_int z in
    replicate (2 - length s) (ch "0") ++ s.

(** The hour [display_time] shows. *)
Definition shown_hour (settings : ClockSettings) (now : datetime) : Z :=
  if negb (hour_24 settings) then
    let h := hour now mod 12 in
    if h =? 0 then 12 else h
  else hour now.

(** The colon flag [display_time] sets before it renders. *)
Definition shown_colon (settings : ClockSettings) (now : datetime) : bool :=
  if flash_colon settings then second now mod 2 =? 0 else true.

(** The text [display_time] renders: [f"{hour:2d}{minute:02d}"]. *)
Definition time_text (settings : ClockSettings) (now : datetime) : pystr :=
  format_2d (shown_hour settings now) ++ format_02d (minute now).

(** [display_time(disp, settings)].  [localtime tz] is [datetime.now] in the
    zone named [tz], or [None] when [pytz.timezone] does not know the name
    and raises. *)
Definition display_time {drv : Driver} (localtime : pystr -> option datetime)
    (disp : Display) (settings : ClockSettings) : result (Display * list effect) :=
  let* now := or_raise UnknownTimeZoneError (localtime (timezone settings)) in
  let disp := with_colon (shown_colon settings now) disp in
  Ok (disp, display disp (time_text settings now)).

(** ** The input queue and the world *)

(** The values the producers put on [input_queue]: the encoder and button
    callbacks, and the keyboard thread. *)
Inductive event := Up | Down | Left | Right | Enter | Plus | Minus.

(** What the consumer meets when it looks at the queue: the next event, or
    one observation of [input_queue.empty()] being true.  At the end of the
    list the queue stays empty for good. *)
Inductive arrival :=
| Ev (e : event)
| Idle.

(** The answers of the outside tools.  [None] is [subprocess.run] raising. *)
Record environment := {
  nmcli_list : option (list pystr);       (* stdout.splitlines() of the scan *)
  nmcli_add : pystr -> pystr -> option Z; (* return code of [connection add] *)
  nmcli_up : pystr -> option Z;           (* return code of [connection up] *)
  wlan0_inet : option (option pystr)      (* group 1 of the [inet] match *)
}.

Record world := {
  settings : ClockSettings;
  disp : Display;
  files : file_store;
  trace : list effect                     (* oldest first *)
}.

Definition with_settings (s : ClockSettings) (w : world) : world :=
  {| settings := s; disp := disp w; files := files w; trace := trace w |}.
Definition with_disp (d : Display) (w : world) : world :=
  {| settings := settings w; disp := d; files := files w; trace := trace w |}.
Definition with_files (fs : file_store) (w : world) : world :=
  {| settings := settings w; disp := disp w; files := fs; trace := trace w |}.

Definition emit (out : list effect) (w : world) : world :=
  {| settings := settings w; disp := disp w; files := files w;
     trace := trace w ++ out |}.

(** [disp.display(text)] *)
Definition show (text : pystr) (w : world) : world :=
  emit (display (disp w) text) w.

(** [time.sleep] *)
Definition sleep (ms : Z) (w : world) : world := emit [Sleep ms] w.

(** [settings.save()] *)
Definition save_settings (w : world) : world :=
  let '(fs, out) := save (settings w) (files w) in
  emit out (with_files fs w).

(** The password entry variables of [set_wifi]. *)
Record entry := {
  password : list Z;
  index : Z;
  letter : Z;
  done : bool;
  pw : pystr
}.

(** Where the program stands when it waits on the empty queue. *)
Inductive screen :=
| MenuList (item : Z)
| FlashSetting
| HourFormatSetting
| TimezoneSetting (index : Z)
| WifiScan (wifi : list pystr) (index : Z)
| WifiPasswordEntry (ssid : pystr) (e : entry)
| IpDisplay (octet : list pystr) (index : Z).

(** How a function that reads the queue ends: it returns, leaving the rest
    of the queue; it waits for input that never comes; or it raises. *)
Inductive outcome (R : Type) :=
| Done (r : R) (rest : list arrival) (w : world)
| Waiting (scr : screen) (w : world)
| Raised (e : exn) (w : world).
Arguments Done {R} r rest w.
Arguments Waiting {R} scr w.
Arguments Raised {R} e w.

(** One pass through the body of a [while True] loop after an event was
    read: go round again, or leave the loop for good. *)
Inductive step (St R : Type) :=
| Continue (s : St) (w : world)
| Finish (o : outcome R).
Arguments Continue {St R} s w.
Arguments Finish {St R} o.

(** The loop shape every screen has:
<<
    while True:
        top                                  # up to the display call
        while input_queue.empty(): time.sleep(0.1)
        input = input_queue.get()
        handle input
>>
    [wait_input] starts at the inner wait, with [top] already done. *)
Section EventLoop.
Context {St R : Type}.
Variable at_screen : St -> screen.
Variable top : St -> world -> result (St * world).
Variable handle : event -> St -> list arrival -> world -> step St R.

Fixpoint wait_input (q : list arrival) (s : St) (w : world) : outcome R :=
  match q with
  | [] => Waiting (at_screen s) w
  | Idle :: q' => wait_input q' s (sleep 100 w)
  | Ev input :: q' =>
      match handle input s q' w with
      | Continue s1 w1 =>
          match top s1 w1 with
          | Ok (s2, w2) => wait_input q' s2 w2
          | Raise e => Raised e w1
          end
      | Finish o => o
      end
  end.

Definition event_loop (q : list arrival) (s : St) (w : world) : outcome R :=
  match top s w with
  | Ok (s1, w1) => wait_input q s1 w1
  | Raise e => Raised e w
  end.
End EventLoop.

(** ** The setting screens of clock.py *)

Definition set_flash_top (_ : unit) (w : world) : result (unit * world) :=
  let status := if flash_colon (settings w) then py "On" else py "Off" in
  Ok (tt, show (py "FLASH  " ++ status) w).

Definition set_flash_handle (input : event) (_ : unit) (q : list arrival)
    (w : world) : step unit unit :=
  match input with
  | Up | Down | Right | Left =>
      Continue tt
        (with_settings
           (with_flash_colon (negb (flash_colon (settings w))) (settings w)) w)
  | Enter => Finish (Done tt q (save_settings w))
  | _ => Continue tt w
  end.

Definition set_flash (q : list arrival) (w : world) : outcome unit :=
  event_loop (fun _ => FlashSetting) set_flash_top set_flash_handle q tt w.

Definition set_24h_top (_ : unit) (w : world) : result (unit * world) :=
  let status := if hour_24 (settings w) then py "24" else py "12" in
  Ok (tt, show status w).

Definition set_24h_handle (input : event) (_ : unit) (q : list arrival)
    (w : world) : step unit unit :=
  match input with
  | Up | Down | Right | Left =>
      Continue tt
        (with_settings
           (with_hour_24 (negb (hour_24 (settings w))) (settings w)) w)
  | Enter => Finish (Done tt q (save_settings w))
  | _ => Continue tt w
  end.

Definition set_24h (q : list arrival) (w : world) : outcome unit :=
  event_loop (fun _ => HourFormatSetting) set_24h_top set_24h_handle q tt w.

(** Run [k] on the value of [r], or leave the loop with its exception. *)
Definition attempt {A St R : Type} (r : result A) (w : world)
    (k : A -> step St R) : step St R :=
  match r with
  | Ok a => k a
  | Raise e => Finish (Raised e w)
  end.

(** Sequencing on outcomes: go on when the first function has returned. *)
Definition and_then {A B : Type} (o : outcome A)
    (k : A -> list arrival -> world -> outcome B) : outcome B :=
  match o with
  | Done a rest w => k a rest w
  | Waiting scr w => Waiting scr w
  | Raised e w => Raised e w
  end.

(** The dict [zones] of [set_timezone], in insertion order. *)
Definition zones : list (pystr * pystr) :=
  [ (py "Eastern", py "America/New_York");
    (py "Central", py "America/Chicago");
    (py "Mountain", py "America/Denver");
    (py "Pacific", py "America/Los_Angeles");
    (py "Alaska", py "America/Anchorage");
    (py "Hawaii", py "America/Honolulu");
    (py "UTC", py "UTC") ].

(** [l.index(x)]: the first position of [x], or ValueError. *)
Fixpoint list_index (x : pystr) (l : list pystr) : option Z :=
  match l with
  | [] => None
  | y :: l' => if pystr_eqb y x then Some 0 else Z.succ <$> list_index x l'
  end.

Definition set_timezone_top (index : Z) (w : world) : result (Z * world) :=
  let* name := getitem (map fst zones) index in
  Ok (index, show name w).

Definition set_timezone_handle (input : event) (index : Z) (q : list arrival)
    (w : world) : step Z unit :=
  match input with
  | Up | Right =>
      attempt (let* index := py_mod (index + 1) (len zones) in
               let* tz := getitem (map snd zones) index in
               Ok (index, tz)) w
        (fun '(index, tz) =>
           Continue index (with_settings (with_timezone tz (settings w)) w))
  | Down | Left =>
      attempt (let* index := py_mod (index - 1) (len zones) in
               let* tz := getitem (map snd zones) index in
               Ok (index, tz)) w
        (fun '(index, tz) =>
           Continue index (with_settings (with_timezone tz (settings w)) w))
  | Enter => Finish (Done tt q (save_settings w))
  | _ => Continue index w
  end.

Definition set_timezone (q : list arrival) (w : world) : outcome unit :=
  match list_index (timezone (settings w)) (map snd zones) with
  | None => Raised ValueError w
  | Some index =>
      event_loop TimezoneSetting set_timezone_top set_timezone_handle q index w
  end.

(** ** Wi-Fi setup *)

(** The dict [symbols] of [set_wifi], in insertion order.  The keys are
    one-character strings. *)
Definition symbols : list (char * pystr) :=
    [ (ch "a", downarrow :: py "A a"); (ch "b", downarrow :: py "B b");
      (ch "c", downarrow :: py "C c"); (ch "d", downarrow :: py "D d");
      (ch "e", downarrow :: py "E e"); (ch "f", downarrow :: py "F f");
      (ch "g", downarrow :: py "G g"); (ch "h", downarrow :: py "H h");
      (ch "i", downarrow :: py "I i"); (ch "j", downarrow :: py "J j");
      (ch "k", downarrow :: py "K k"); (ch "l", downarrow :: py "L l");
      (ch "m", downarrow :: py "M m"); (ch "n", downarrow :: py "N n");
      (ch "o", downarrow :: py "O o"); (ch "p", downarrow :: py "P p");
      (ch "q", downarrow :: py "Q q"); (ch "r", downarrow :: py "R r");
      (ch "s", downarrow :: py "S s"); (ch "t", downarrow :: py "T t");
      (ch "u", downarrow :: py "U u"); (ch "v", downarrow :: py "V v");
      (ch "w", downarrow :: py "W w"); (ch "x", downarrow :: py "X x");
      (ch "y", downarrow :: py "Y y"); (ch "z", downarrow :: py "Z z");
      (ch "1", py "N  1"); (ch "2", py "N  2");
      (ch "3", py "N  3"); (ch "4", py "N  4");
      (ch "5", py "N  5"); (ch "6", py "N  6");
      (ch "7", py "N  7"); (ch "8", py "N  8");
      (ch "9", py "N  9"); (ch "0", py "N  0");
      (ch "A", uparrow :: py "A A"); (ch "B", uparrow :: py "B B");
      (ch "C", uparrow :: py "C C"); (ch "D", uparrow :: py "D D");
      (ch "E", uparrow :: py "E E"); (ch "F", uparrow :: py "F F");
      (ch "G", uparrow :: py "G G"); (ch "H", uparrow :: py "H H");
      (ch "I", uparrow :: py "I I"); (ch "J", uparrow :: py "J J");
      (ch "K", uparrow :: py "K K"); (ch "L", uparrow :: py "L L");
      (ch "M", uparrow :: py "M M"); (ch "N", uparrow :: py "N N");
      (ch "O", uparrow :: py "O O"); (ch "P", uparrow :: py "P P");
      (ch "Q", uparrow :: py "Q Q"); (ch "R", uparrow :: py "R R");
      (ch "S", uparrow :: py "S S"); (ch "T", uparrow :: py "T T");
      (ch "U", uparrow :: py "U U"); (ch "V", uparrow :: py "V V");
      (ch "W", uparrow :: py "W W"); (ch "X", uparrow :: py "X X");
      (ch "Y", uparrow :: py "Y Y"); (ch "Z", uparrow :: py "Z Z");
      (ch "-", py "   -"); (ch "_", py "   _");
      (ch "[", py "LB ["); (ch "]", py "RB ]");
      (ch "!", uparrow :: py "1 !"); (ch "@", uparrow :: py "2 @");
      (ch "#", uparrow :: py "3 #"); (ch "$", uparrow :: py "4 $");
      (ch "%", uparrow :: py "5 %"); (ch "^", uparrow :: py "6 ^");
      (ch "&", uparrow :: py "7 &"); (ch "*", uparrow :: py "8 *");
      (ch "(", uparrow :: py "9 ("); (ch ")", uparrow :: py "0 )");
      (ch ",", py "COM,"); (ch ".", py "DOT.");
      (ch "?", py "QUE?"); (ch "/", py "SL /");
      (ch "\", py "BSL\"); (ch "~", py "TLD~");
      (ch "=", py "EQL="); (ch "+", py "PLS+");
      (ch "{", py "LC {"); (ch "}", py "RC }");
      (ch "|", py "PIP|"); (ch "<", py "LT <");
      (ch ">", py "GT >"); (ch ":", py "COL:");
      (ch ";", py "SCL;"); (ch "'", py "SQ '");
      (quote, py "DQ " ++ [quote]); (ch " ", py "SPC ") ].

(** [a < b] on [str]: lexicographic on code points. *)
Fixpoint str_ltb (a b : pystr) : bool :=
  match a, b with
  | _, [] => false
  | [], _ :: _ => true
  | x :: a', y :: b' =>
      if N.ltb x y then true
      else if N.ltb y x then false
      else str_ltb a' b'
  end.

Fixpoint insert_sorted (x : pystr) (l : list pystr) : list pystr :=
  match l with
  | [] => [x]
  | y :: l' =>
      if str_ltb x y then x :: l
      else if pystr_eqb x y then l
      else y :: insert_sorted x l'
  end.

(** [sorted(set(l))] *)
Definition sorted_set (l : list pystr) : list pystr :=
  foldr insert_sorted [] l.

(** [[line for line in lines if line]] *)
Definition nonempty_lines (lines : list pystr) : list pystr :=
  filter (fun line => line <> []) lines.

Definition scan_argv : list pystr :=
  [py "nmcli"; py "-t"; py "-f"; py "SSID"; py "device"; py "wifi"; py "list"].

Definition add_argv (ssid pw : pystr) : list pystr :=
  [py "nmcli"; py "connection"; py "add"; py "type"; py "wifi";
   py "ifname"; py "wlan0"; py "con-name"; ssid; py "ssid"; ssid; py "--";
   py "wifi-sec.key-mgmt"; py "wpa-psk"; py "wifi-sec.psk"; pw].

Definition up_argv (ssid : pystr) : list pystr :=
  [py "nmcli"; py "connection"; py "up"; ssid].

(** The SSID selection loop. *)
Definition select_top (wifi : list pystr) (index : Z) (w : world)
  : result (Z * world) :=
  let* name := getitem wifi index in
  Ok (index, show name w).

Definition select_handle (wifi : list pystr) (input : event) (index : Z)
    (q : list arrival) (w : world) : step Z pystr :=
  match input with
  | Up | Right =>
      attempt (py_mod (index + 1) (len wifi)) w (fun index => Continue index w)
  | Down | Left =>
      attempt (py_mod (index - 1) (len wifi)) w (fun index => Continue index w)
  | Enter =>
      attempt (getitem wifi index) w (fun ssid => Finish (Done ssid q w))
  | _ => Continue index w
  end.

Definition select_ssid (wifi : list pystr) (q : list arrival) (w : world)
  : outcome pystr :=
  event_loop (WifiScan wifi) (select_top wifi) (select_handle wifi) q 0 w.

(** The password entry loop.  [pw] is unbound in the source until the first
    confirm; it is read only after [done] was set, which binds it. *)
Definition entry_start : entry :=
  {| password := []; index := 0; letter := 0; done := false; pw := [] |}.

Definition entry_top (e : entry) (w : world) : result (entry * world) :=
  let* e :=
    if len (password e) <? index e + 1 then
      Ok {| password := password e ++ [0]; index := index e; letter := 0;
            done := done e; pw := pw e |}
    else
      let* letter := getitem (password e) (index e) in
      Ok {| password := password e; index := index e; letter := letter;
            done := done e; pw := pw e |} in
  if negb (done e) then
    let* sym := getitem (map snd symbols) (letter e) in
    Ok (e, show sym w)
  else Ok (e, w).

(** [pw = ""; for i in range(len(password)): pw += list(symbols.keys())[password[i]]] *)
Fixpoint spell (password : list Z) : result pystr :=
  match password with
  | [] => Ok []
  | i :: rest =>
      let* k := getitem (map fst symbols) i in
      let* s := spell rest in
      Ok (k :: s)
  end.

Definition entry_handle (input : event) (e : entry) (q : list arrival)
    (w : world) : step entry pystr :=
  match input with
  | Up =>
      attempt (let* v := py_mod (letter e + 1) (len symbols) in
               setitem (password e) (index e) v) w
        (fun p => Continue {| password := p; index := index e;
                              letter := letter e; done := false; pw := pw e |} w)
  | Down =>
      attempt (let* v := py_mod (letter e - 1) (len symbols) in
               setitem (password e) (index e) v) w
        (fun p => Continue {| password := p; index := index e;
                              letter := letter e; done := false; pw := pw e |} w)
  | Right =>
      Continue {| password := password e;
                  index := Z.min (index e + 1) (len (password e));
                  letter := letter e; done := false; pw := pw e |} w
  | Left =>
      Continue {| password := password e;
                  index := Z.max 0 (index e - 1);
                  letter := letter e; done := false; pw := pw e |} w
  | Enter =>
      if done e then Finish (Done (pw e) q w)
      else
        attempt (spell (password e)) w
          (fun pw => Continue {| password := password e; index := index e;
                                 letter := letter e; done := true; pw := pw |}
                              (show pw w))
  | _ => Continue e w
  end.

Definition enter_password (ssid : pystr) (q : list arrival) (w : world)
  : outcome pystr :=
  event_loop (WifiPasswordEntry ssid) entry_top entry_handle q entry_start w.

Section Tools.
Variable env : environment.

(** The connect phase of [set_wifi], from the first [try] to the end. *)
Definition connect (ssid pw : pystr) (w : world) : world :=
  let w := emit [Run (add_argv ssid pw)] w in
  match nmcli_add env ssid pw with
  | None => sleep 2000 (show (py "FAIL") w)
  | Some returncode =>
      if negb (returncode =? 0) then sleep 2000 (show (py "FAIL") w)
      else
        let w := emit [Run (up_argv ssid)] w in
        match nmcli_up env ssid with
        | None => sleep 2000 (show (py "FAIL") w)
        | Some returncode =>
            let w := if returncode =? 0 then show (py "GOOD") w
                     else show (py "FAIL") w in
            sleep 2000 w
        end
  end.

Definition set_wifi (q : list arrival) (w : world) : outcome unit :=
  let w := emit [Run scan_argv] w in
  match nmcli_list env with
  | None => Raised OSError w
  | Some lines =>
      let wifi := sorted_set (nonempty_lines lines) in
      and_then (select_ssid wifi q w) (fun ssid q w =>
      let w := sleep 2000 (show (py "ENTER PASSWORD") w) in
      and_then (enter_password ssid q w) (fun pw q w =>
      Done tt q (connect ssid pw w)))
  end.

End Tools.

(** ** The IP address screen *)

(** [s.split(sep)] for a one-character separator. *)
Fixpoint split (sep : char) (s : pystr) : list pystr :=
  match s with
  | [] => [[]]
  | c :: s' =>
      if N.eqb c sep then [] :: split sep s'
      else match split sep s' with
           | [] => [[c]]
           | part :: parts => (c :: part) :: parts
           end
  end.

Definition ip_argv : list pystr := [py "ip"; py "addr"; py "show"; py "wlan0"].

Definition ip_top (octet : list pystr) (index : Z) (w : world)
  : result (Z * world) :=
  let* part := getitem octet index in
  Ok (index, show part w).

Definition ip_handle (octet : list pystr) (input : event) (index : Z)
    (q : list arrival) (w : world) : step Z unit :=
  match input with
  | Up | Right => Continue (Z.min (index + 1) (len octet - 1)) w
  | Down | Left => Continue (Z.max 0 (index - 1)) w
  | Enter => Finish (Done tt q w)
  | _ => Continue index w
  end.

(** ** The main program of clock.py *)

(** The string variable [state] of the main loop. *)
Inductive State := StClock | StMenu.

Record main_vars := {
  state : State;
  save_time : Z
}.

Definition menu_items : list pystr :=
  [py "FLASH"; py "24H"; py "ZONE"; py "WIFI"; py "IP"].

(** What one pass of the main loop reads from the clocks: [time.time()] as
    whole seconds, and [datetime.now] per zone name. *)
Record tick := {
  epoch : Z;
  localtime : pystr -> option datetime
}.

(** The confirm branch of the clock state. *)
Definition toggle_brightness (s : ClockSettings) : ClockSettings :=
  if 0 <? brightness s then with_brightness 0 s else with_brightness 15 s.

(** [while not input_queue.empty(): ...] of the clock state. *)
Fixpoint drain (q : list arrival) (v : main_vars) (w : world)
  : main_vars * list arrival * world :=
  let changed (s : ClockSettings) (q' : list arrival) :=
    let w := with_settings s w in
    drain q' {| state := state v; save_time := 10 |}
          (emit (set_brightness (disp w) (brightness s)) w) in
  match q with
  | [] => (v, [], w)
  | Idle :: q' => (v, q', w)
  | Ev input :: q' =>
      match input with
      | Plus | Up => changed (increase_brightness (settings w)) q'
      | Minus | Down => changed (decrease_brightness (settings w)) q'
      | Enter => changed (toggle_brightness (settings w)) q'
      | Right | Left => drain q' {| state := StMenu; save_time := save_time v |} w
      end
  end.

Section Main.
Variable env : environment.

Definition get_wlan0_ip (w : world) : result (option pystr) * world :=
  (or_raise OSError (wlan0_inet env), emit [Run ip_argv] w).

Definition display_ip_address (q : list arrival) (w : world) : outcome unit :=
  match get_wlan0_ip w with
  | (Raise e, w) => Raised e w
  | (Ok found, w) =>
      let ip := match found with
                | Some (c :: s) => c :: s
                | _ => py "127.0.0.1"
                end in
      let octet := split (ch ".") ip in
      event_loop (IpDisplay octet) (ip_top octet) (ip_handle octet) q 0 w
  end.

Definition menu_top (item : Z) (w : world) : result (Z * world) :=
  let* name := getitem menu_items item in
  Ok (item, show name w).

(** A setting screen has returned: [state = "clock"; break]. *)
Definition back_to_clock (o : outcome unit) : step Z State :=
  Finish (and_then o (fun _ q w => Done StClock q w)).

Definition menu_handle (input : event) (item : Z) (q : list arrival)
    (w : world) : step Z State :=
  match input with
  | Right | Up =>
      attempt (py_mod (item + 1) (len menu_items)) w
        (fun item => Continue item w)
  | Left | Down =>
      attempt (py_mod (item - 1) (len menu_items)) w
        (fun item => Continue item w)
  | Enter =>
      attempt (getitem menu_items item) w (fun name =>
      if pystr_eqb name (py "FLASH") then back_to_clock (set_flash q w)
      else if pystr_eqb name (py "24H") then back_to_clock (set_24h q w)
      else if pystr_eqb name (py "ZONE") then back_to_clock (set_timezone q w)
      else if pystr_eqb name (py "WIFI") then back_to_clock (set_wifi env q w)
      else if pystr_eqb name (py "IP") then back_to_clock (display_ip_address q w)
      else Continue item w)
  | _ => Finish (Done StClock q w)
  end.

(** The inner [while True] of the menu state. *)
Definition menu_loop (q : list arrival) (w : world) : outcome State :=
  event_loop MenuList menu_top menu_handle q 0 w.

(** The countdown after the menu loop.  The source line reads
    [id save_time == 0:], which is taken as the [if] it stands for. *)
Definition countdown (v : main_vars) (w : world) : main_vars * world :=
  if 0 <? save_time v then
    let t := save_time v - 1 in
    ({| state := state v; save_time := t |},
     if t =? 0 then save_settings w else w)
  else (v, w).

(** The clock state of one pass: render the time and drain the queue. *)
Definition clock_pass (t : tick) (q : list arrival) (v : main_vars) (w : world)
  : outcome main_vars :=
  let w := with_disp
             (with_colon (flash_colon (settings w) && (epoch t mod 2 =? 0))
                         (disp w)) w in
  match display_time (localtime t) (disp w) (settings w) with
  | Raise e => Raised e w
  | Ok (d, out) =>
      let '(v, q, w) := drain q v (emit out (with_disp d w)) in
      Done v q w
  end.

(** The menu state of one pass: the menu, the countdown and the sleep to
    the next second. *)
Definition menu_pass (q : list arrival) (v : main_vars) (w : world)
  : outcome main_vars :=
  let w := with_disp (with_colon false (disp w)) w in
  and_then (menu_loop q w) (fun st q w =>
  let '(v, w) := countdown {| state := st; save_time := save_time v |} w in
  Done v q (emit [SleepToNextSecond] w)).

(** One pass through the body of the main [while True]: the two [if]s on
    [state], one after the other. *)
Definition main_iteration (t : tick) (q : list arrival) (v : main_vars)
    (w : world) : outcome main_vars :=
  and_then (match state v with
            | StClock => clock_pass t q v w
            | StMenu => Done v q w
            end)
    (fun v q w =>
       match state v with
       | StMenu => menu_pass q v w
       | StClock => Done v q w
       end).

(** The main loop, for as many passes as there are clock readings. *)
Fixpoint main_loop (ticks : list tick) (q : list arrival) (v : main_vars)
    (w : world) : outcome main_vars :=
  match ticks with
  | [] => Done v q w
  | t :: ticks' =>
      and_then (main_iteration t q v w) (fun v q w => main_loop ticks' q v w)
  end.

(** The start of [__main__]: the settings are loaded, then the display is
    opened. *)
Definition startup (fs : file_store) : main_vars * world :=
  let '(s, fs, out1) := ClockSettings_init fs in
  let '(d, out2) := Display_init 1 0x70 (brightness s) 500 in
  ({| state := StClock; save_time := 0 |},
   {| settings := s; disp := d; files := fs; trace := out1 ++ out2 |}).

Definition main (fs : file_store) (ticks : list tick) (q : list arrival)
  : outcome main_vars :=
  let '(v, w) := startup fs in
  main_loop ticks q v w.

End Main.

(** ** The main program of smallclock.py *)

(** What one pass of the main loop of smallclock.py reads from the outside:
    [time.time()] as whole seconds, [datetime.now] per zone name inside
    [display_time] and again after it, and the answer of
    [is_dark_outside()], whose floating-point estimate is taken as given. *)
Record small_tick := {
  s_epoch : Z;
  s_shown : pystr -> option datetime;
  s_checked : pystr -> option datetime;
  s_dark : bool
}.

(** How a pass without a queue ends: it completes, with the value of
    [last_minute], or it raises. *)
Inductive pass :=
| Passed (last_minute : Z) (w : world)
| Failed (e : exn) (w : world).

(** The brightness switch of the once-a-minute check. *)
Definition auto_dim (dark : bool) (w : world) : world :=
  if (brightness (settings w) =? 0) && negb dark then
    emit (set_brightness (disp w) 15)
         (with_settings (with_brightness 15 (settings w)) w)
  else if (brightness (settings w) =? 15) && dark then
    emit (set_brightness (disp w) 0)
         (with_settings (with_brightness 0 (settings w)) w)
  else w.

(** One pass through the body of the main [while True] of smallclock.py. *)
Definition smallclock_iteration (t : small_tick) (last_minute : Z) (w : world)
  : pass :=
  let w := with_disp
             (with_colon (flash_colon (settings w) && (s_epoch t mod 2 =? 0))
                         (disp w)) w in
  match @display_time smallclock_driver (s_shown t) (disp w) (settings w) with
  | Raise e => Failed e w
  | Ok (d, out) =>
      let w := emit out (with_disp d w) in
      match s_checked t (timezone (settings w)) with
      | None => Failed UnknownTimeZoneError w
      | Some now =>
          let '(last_minute, w) :=
            if (second now =? 0) && negb (minute now =? last_minute) then
              (minute now, auto_dim (s_dark t) w)
            else (last_minute, w) in
          Passed last_minute (emit [SleepToNextSecond] w)
      end
  end.

(** The main loop of smallclock.py, for as many passes as there are clock
    readings. *)
Fixpoint smallclock_loop (ticks : list small_tick) (last_minute : Z) (w : world)
  : pass :=
  match ticks with
  | [] => Passed last_minute w
  | t :: ticks' =>
      match smallclock_iteration t last_minute w with
      | Passed last_minute w => smallclock_loop ticks' last_minute w
      | Failed e w => Failed e w
      end
  end.

(** [__main__] of smallclock.py: the same start as in clock.py, then the
    loop with [last_minute = -1]. *)
Definition smallclock_main (fs : file_store) (ticks : list small_tick) : pass :=
  let '(_, w) := startup fs in
  smallclock_loop ticks (-1) w.

(** The world a pass ends in. *)
Definition pass_world (p : pass) : world :=
  match p with
  | Passed _ w | Failed _ w => w
  end.

(** ** Notions used to state the properties *)

(** The brightness range of the HT16K33. *)
Definition in_range (b : Z) : Prop := 0 <= b <= 15.

(** The operations that assign [settings.brightness]. *)
Inductive brightness_op :=
| OpIncrease                        (* increase_brightness *)
| OpDecrease                        (* decrease_brightness *)
| OpToggle                          (* confirm in the clock state *)
| OpLoad (fs : file_store).         (* load, from the file as it is then *)

Definition apply_op (s : ClockSettings) (o : brightness_op) : ClockSettings :=
  match o with
  | OpIncrease => increase_brightness s
  | OpDecrease => decrease_brightness s
  | OpToggle => toggle_brightness s
  | OpLoad fs => (load s fs).1.1
  end.

Definition apply_ops (ops : list brightness_op) (s : ClockSettings) : ClockSettings :=
  fold_left apply_op ops s.

(** The brightness a settings file holds, when it holds one. *)
Definition stored_brightness (fs : file_store) : option Z :=
  match content fs with
  | Some (Object b _ _ _) => b
  | _ => None
  end.

(** An operation that cannot bring in a brightness from outside the range. *)
Definition op_in_range (o : brightness_op) : Prop :=
  match o with
  | OpLoad fs =>
      match stored_brightness fs with
      | Some b => in_range b
      | None => True
      end
  | _ => True
  end.

(** The block writes of a trace, in order. *)
Definition is_block_write (e : effect) : bool :=
  match e with
  | I2CWriteBlock _ _ _ _ => true
  | _ => false
  end.

Definition block_writes (out : list effect) : list effect :=
  List.filter is_block_write out.

Definition is_bus_write (e : effect) : bool :=
  match e with
  | I2CWriteByte _ _ _ | I2CWriteBlock _ _ _ _ => true
  | _ => false
  end.

(** The colon bit of a 14-segment frame as sent: bit 0x40 of the high byte
    of the second digit, which is [frame[1 + 2 + 1]], the fourth data byte. *)
Definition colon_bit (data : list Z) : bool := Z.testbit (nth 3 data 0) 6.

(** A reading of the wall clock. *)
Definition valid_time (now : datetime) : Prop :=
  0 <= hour now < 24 /\ 0 <= minute now < 60 /\ 0 <= second now < 60.

Definition is_next (e : event) : Prop := e = Up \/ e = Right.
Definition is_previous (e : event) : Prop := e = Down \/ e = Left.
Definition is_direction (e : event) : Prop :=
  e = Up \/ e = Down \/ e = Left \/ e = Right.

(** The size of the symbol table of the password entry. *)
Definition K : nat := length symbols.

(** The loop variables after the arrivals of [q] were handled, when the loop
    is still running then. *)
Section Advance.
Context {St R : Type}.
Variable top : St -> world -> result (St * world).
Variable handle : event -> St -> list arrival -> world -> step St R.

Fixpoint advance (q : list arrival) (s : St) (w : world) : option (St * world) :=
  match q with
  | [] => Some (s, w)
  | Idle :: q' => advance q' s (sleep 100 w)
  | Ev input :: q' =>
      match handle input s q' w with
      | Continue s1 w1 =>
          match top s1 w1 with
          | Ok (s2, w2) => advance q' s2 w2
          | Raise _ => None
          end
      | Finish _ => None
      end
  end.

(** Going round the loop again does not depend on what is still queued. *)
Definition queue_blind : Prop :=
  forall input s q q' w s1 w1,
    handle input s q w = Continue s1 w1 ->
    handle input s q' w = Continue s1 w1.

(** Leaving the loop is never a wait. *)
Definition finish_final : Prop :=
  forall input s q w o scr w',
    handle input s q w = Finish o -> o <> Waiting scr w'.
End Advance.

(** The timezone screen shows zone [i] and the settings hold its name. *)
Definition zone_at (i : Z) (w : world) : Prop :=
  0 <= i < 7 /\ getitem (map snd zones) i = Ok (timezone (settings w)).

(** The selection after one event on the timezone screen. *)
Definition zone_step (i : Z) (e : event) : Z :=
  match e with
  | Up | Right => (i + 1) mod 7
  | Down | Left => (i - 1) mod 7
  | _ => i
  end.

(** Two worlds that differ in the zone name and the trace at most. *)
Definition same_but_zone (w w' : world) : Prop :=
  brightness (settings w') = brightness (settings w)
  /\ hour_24 (settings w') = hour_24 (settings w)
  /\ flash_colon (settings w') = flash_colon (settings w)
  /\ disp w' = disp w
  /\ files w' = files w.

(** The password entry variables when the loop body starts: the cursor is
    on the buffer or one past its end, and every entry is a symbol index. *)
Definition entry_at_top (e : entry) : Prop :=
  0 <= index e <= len (password e)
  /\ Forall (fun x => 0 <= x < len symbols) (password e).

(** The same while the loop waits for input: the cursor is on the buffer
    and [letter] is the entry under it. *)
Definition entry_waiting (e : entry) : Prop :=
  0 <= index e < len (password e)
  /\ Forall (fun x => 0 <= x < len symbols) (password e)
  /\ password e !! Z.to_nat (index e) = Some (letter e).

(** The entry variables one "up" later. *)
Definition entry_up (e : entry) : entry :=
  {| password := <[Z.to_nat (index e) := (letter e + 1) mod len symbols]> (password e);
     index := index e;
     letter := (letter e + 1) mod len symbols;
     done := false;
     pw := pw e |}.

(** The entry variables one "down" later. *)
Definition entry_down (e : entry) : entry :=
  {| password := <[Z.to_nat (index e) := (letter e - 1) mod len symbols]> (password e);
     index := index e;
     letter := (letter e - 1) mod len symbols;
     done := false;
     pw := pw e |}.

(** The entry variables with the preview flag cleared. *)
Definition entry_edited (e : entry) : entry :=
  {| password := password e; index := index e; letter := letter e;
     done := false; pw := pw e |}.

(** Whether both steps of the connect phase succeed: the profile was added
    and the connection came up, each with return code 0. *)
Definition connect_succeeds (env : environment) (ssid pw : pystr) : bool :=
  match nmcli_add env ssid pw with
  | Some 0 =>
      match nmcli_up env ssid with
      | Some 0 => true
      | _ => false
      end
  | _ => false
  end.

(** A world to run examples in: default settings, the display as
    [__main__] opens it, no settings file yet. *)
Definition sample_world : world :=
  {| settings := default_settings;
     disp := {| bus := 1; address := 0x70; scroll_delay := 500; colon := true |};
     files := {| content := None; writable := true |};
     trace := [] |}.

Definition sample_env : environment :=
  {| nmcli_list := Some [py "home"; []; py "cafe"; py "home"];
     nmcli_add := fun _ _ => Some 0;
     nmcli_up := fun _ => Some 0;
     wlan0_inet := Some None |}.

Definition sample_tick : tick :=
  {| epoch := 0;
     localtime := fun _ => Some {| hour := 0; minute := 5; second := 30 |} |}.

(** The world an outcome ends in. *)
Definition world_of {R : Type} (o : outcome R) : world :=
  match o with
  | Done _ _ w | Waiting _ w | Raised _ w => w
  end.

(** The value a function returned, when it returned. *)
Definition returned {R : Type} (o : outcome R) : option R :=
  match o with
  | Done r _ _ => Some r
  | _ => None
  end.

(** The main loop variables at the start of [__main__]. *)
Definition start_vars : main_vars := {| state := StClock; save_time := 0 |}.

(** The trace only grows: [w'] has the effects of [w] and then more. *)
Definition extends (w w' : world) : Prop :=
  exists out, trace w' = trace w ++ out.

(** The time a trace spends in [time.sleep], in milliseconds. *)
Definition sleep_total (out : list effect) : Z :=
  fold_right (fun e acc => match e with
                           | Sleep ms => ms + acc
                           | _ => acc
                           end) 0 out.

(** Whether an event is one of the four directions. *)
Definition direction (e : event) : bool :=
  match e with
  | Up | Down | Left | Right => true
  | _ => false
  end.

(** How many of the events are directions. *)
Definition directions (evs : list event) : nat :=
  length (List.filter direction evs).

(** The menu item after one direction event. *)
Definition menu_step (i : Z) (e : event) : Z :=
  match e with
  | Right | Up => (i + 1) mod 5
  | Left | Down => (i - 1) mod 5
  | _ => i
  end.

(** A dimming command for a level in [0,15], on the bus of [d]. *)
Definition dims (d : Display) (e : effect) : Prop :=
  exists level, in_range level
                /\ e = I2CWriteByte (bus d) (address d) (0xE0 + level).

(** The events the clock state drains in one pass: those queued ahead of
    the first moment the queue is seen empty. *)
Fixpoint drained (q : list arrival) : list event :=
  match q with
  | Ev e :: q' => e :: drained q'
  | _ => []
  end.



(** A list of strings in strictly increasing order. *)
Fixpoint ascending (l : list pystr) : Prop :=
  match l with
  | [] => True
  | x :: l' => Forall (fun y => str_ltb x y = true) l' /\ ascending l'
  end.


(** ** The settings record *)

Lemma increase_brightness_range s :
  brightness s <= 15 -> 0 <= brightness s + 1 ->
  in_range (brightness (increase_brightness s)).
Proof.
  unfold increase_brightness, in_range. cbn.
  destruct (Z.ltb_spec 15 (brightness s + 1)); lia.
Qed.

Lemma decrease_brightness_range s :
  0 <= brightness s -> brightness s - 1 <= 15 ->
  in_range (brightness (decrease_brightness s)).
Proof.
  unfold decrease_brightness, in_range. cbn.
  destruct (Z.ltb_spec (brightness s - 1) 0); lia.
Qed.

Lemma toggle_brightness_range s : in_range (brightness (toggle_brightness s)).
Proof.
  unfold toggle_brightness, in_range.
  destruct (0 <? brightness s); cbn; lia.
Qed.

Lemma load_brightness s fs :
  brightness (load s fs).1.1 =
    match content fs with
    | Some (Object b _ _ _) => default 0 b
    | _ => brightness s
    end.
Proof.
  unfold load. destruct (content fs) as [[|b tz h f]|]; reflexivity.
Qed.

Lemma apply_op_range s o :
  in_range (brightness s) -> op_in_range o ->
  in_range (brightness (apply_op s o)).
Proof.
  intros Hs Ho. destruct o as [| | |fs]; cbn [apply_op].
  - apply increase_brightness_range; unfold in_range in Hs; lia.
  - apply decrease_brightness_range; unfold in_range in Hs; lia.
  - apply toggle_brightness_range.
  - rewrite load_brightness. unfold op_in_range, stored_brightness in Ho.
    destruct (content fs) as [[|[b|] tz h f]|]; cbn; try assumption.
    unfold in_range; lia.
Qed.

(** C1, the claim as stated fails: loading a settings file that stores
    brightness 99 leaves brightness at 99, and from a brightness of 20
    [decrease_brightness] gives 19; both are outside [0,15]. *)
Lemma brightness_range_counterexample :
  ~ in_range (brightness
      (apply_ops [OpLoad {| content := Some (Object (Some 99) None None None);
                            writable := true |}] default_settings))
  /\ ~ in_range (brightness
         (apply_ops [OpDecrease] (with_brightness 20 default_settings))).
Proof.
split; intros H; unfold in_range in H.
- change (brightness _) with 99 in H. lia.
- change (brightness _) with 19 in H. lia.
Qed.

(** C1, amended: from a brightness in [0,15], every sequence of
    [increase_brightness], [decrease_brightness], confirm toggles and loads
    of files whose stored brightness is in [0,15] keeps brightness in
    [0,15]; the two ends clamp and do not wrap. *)
Theorem brightness_stays_in_range ops s :
  in_range (brightness s) ->
  Forall op_in_range ops ->
  in_range (brightness (apply_ops ops s))
  /\ (brightness s = 15 -> brightness (increase_brightness s) = 15)
  /\ (brightness s = 0 -> brightness (decrease_brightness s) = 0).
Proof.
  intros Hs Hops. split; [|split].
  - revert s Hs. induction Hops as [|o ops Ho _ IH]; intros s Hs; [exact Hs|].
    cbn. apply IH. now apply apply_op_range.
  - intros E. unfold increase_brightness. cbn. rewrite E. reflexivity.
  - intros E. unfold decrease_brightness. cbn. rewrite E. reflexivity.
Qed.

Lemma brightness_stays_in_range_witness :
  in_range (brightness
    (apply_ops [OpIncrease; OpToggle; OpIncrease; OpDecrease;
                OpLoad {| content := Some (Object (Some 7) None None None);
                          writable := true |};
                OpLoad {| content := None; writable := false |}]
               default_settings)).
Proof.
  apply (brightness_stays_in_range
           [OpIncrease; OpToggle; OpIncrease; OpDecrease;
            OpLoad {| content := Some (Object (Some 7) None None None);
                      writable := true |};
            OpLoad {| content := None; writable := false |}]
           default_settings).
  - unfold in_range; cbn; lia.
  - repeat constructor; unfold in_range; cbn; lia.
Defined.

Lemma save_content s fs :
  writable fs = true -> content (save s fs).1 = Some (dumped s).
Proof. intros E. unfold save. cbn. rewrite E. reflexivity. Qed.

Lemma load_dumped s0 s fs :
  content fs = Some (dumped s) -> load s0 fs = (s, fs, []).
Proof. intros E. unfold load. rewrite E. destruct s; reflexivity. Qed.

(** ** The frame renderer *)

Section Scrolling.
Context {drv : Driver}.

Lemma length_slice {A} (l : list A) i j :
  (j <= length l)%nat -> length (slice l i j) = (j - i)%nat.
Proof. intros H. unfold slice. rewrite length_take, length_drop. lia. Qed.

Lemma take_padded (s4 : pystr) :
  length s4 = 4%nat -> take 4 (s4 ++ py "    ") = s4.
Proof.
  intros H. rewrite take_app_le by lia. apply take_ge. lia.
Qed.

Lemma flat_map_agree {A B} (f g : A -> list B) l :
  (forall a, In a l -> f a = g a) -> flat_map f l = flat_map g l.
Proof.
  induction l as [|a l IH]; intros H; [reflexivity|].
  cbn. rewrite (H a) by now left.
  rewrite IH; [reflexivity|]. intros b Hb. apply H. now right.
Qed.

(** Writing a window of exactly four characters pads nothing. *)
Lemma write_window d (s : pystr) i :
  (i + 4 <= length s)%nat ->
  _write_four_chars d (slice s i (i + 4)) = [frame_write d (slice s i (i + 4))].
Proof.
  intros H. unfold _write_four_chars. cbv zeta.
  rewrite take_padded; [reflexivity|].
  rewrite length_slice by lia. lia.
Qed.

(** The scroll as one list: each window but the last is followed by the
    scroll delay. *)
Lemma display_scroll d (s : pystr) :
  (4 < length s)%nat ->
  display d s =
    flat_map (fun i => [frame_write d (slice s i (i + 4)); Sleep (scroll_delay d)])
             (seq 0 (length s - 4))
    ++ [frame_write d (slice s (length s - 4) (length s))].
Proof.
  intros H. unfold display. cbv zeta.
  destruct (Nat.leb_spec (length s) 4) as [?|_]; [lia|].
  replace (length s - 4 + 1)%nat with (S (length s - 4)) by lia.
  rewrite seq_S, flat_map_app. cbn [flat_map]. rewrite app_nil_r.
  f_equal.
  - apply flat_map_agree. intros i Hi. apply in_seq in Hi.
    rewrite write_window by lia.
    destruct (Nat.ltb_spec i (length s - 4)) as [_|?]; [reflexivity|lia].
  - cbn [Nat.add]. rewrite write_window by lia.
    destruct (Nat.ltb_spec (length s - 4) (length s - 4)) as [?|_]; [lia|].
    replace (length s - 4 + 4)%nat with (length s) by lia. reflexivity.
Qed.

Lemma block_writes_app a b :
  block_writes (a ++ b) = block_writes a ++ block_writes b.
Proof. apply List.filter_app. Qed.

Lemma block_writes_scroll d (f : nat -> pystr) l :
  block_writes (flat_map (fun i => [frame_write d (f i); Sleep (scroll_delay d)]) l)
  = map (fun i => frame_write d (f i)) l.
Proof. induction l as [|i l IH]; [reflexivity|]. cbn. now rewrite <- IH. Qed.

Lemma slice_to_end {A} (l : list A) i :
  slice l i (length l) = drop i l.
Proof. unfold slice. apply take_ge. rewrite length_drop. lia. Qed.

End Scrolling.

(** C2: for a text of more than four characters [display] makes
    [len - 3] block writes; the k-th writes the window [s[k:k+4]], windows
    going left to right; the last effect of the call is the write of the
    last four characters, with no delay after it. *)
Theorem display_scroll_windows (drv : Driver) d (s : pystr) :
  (4 < length s)%nat ->
  block_writes (display d s)
    = map (fun k => frame_write d (slice s k (k + 4))) (seq 0 (length s - 3))
  /\ length (block_writes (display d s)) = (length s - 3)%nat
  /\ (forall k, (k < length s - 3)%nat ->
        block_writes (display d s) !! k = Some (frame_write d (slice s k (k + 4)))
        /\ length (slice s k (k + 4)) = 4%nat)
  /\ last (display d s) = Some (frame_write d (drop (length s - 4) s))
  /\ length (drop (length s - 4) s) = 4%nat.
Proof.
  intros H.
  assert (E : block_writes (display d s)
              = map (fun k => frame_write d (slice s k (k + 4)))
                    (seq 0 (length s - 3))).
  { rewrite display_scroll by exact H.
    rewrite block_writes_app, block_writes_scroll.
    replace (length s - 3)%nat with (S (length s - 4)) by lia.
    rewrite seq_S, map_app. cbn.
    replace (length s - 4 + 4)%nat with (length s) by lia. reflexivity. }
  split; [exact E|]. split; [|split; [|split]].
  - rewrite E, length_map, length_seq. reflexivity.
  - intros k Hk. split.
    + rewrite E, list_lookup_fmap, lookup_seq_lt by exact Hk. reflexivity.
    + rewrite length_slice by lia. lia.
  - rewrite display_scroll by exact H. rewrite last_snoc.
    now rewrite slice_to_end.
  - rewrite length_drop. lia.
Qed.

Lemma display_scroll_windows_witness :
  length (block_writes
            (display {| bus := 1; address := 0x70; scroll_delay := 500;
                        colon := false |} (py "FLASH"))) = 2%nat.
Proof.
  exact (proj1 (proj2 (display_scroll_windows clock_driver
    {| bus := 1; address := 0x70; scroll_delay := 500; colon := false |}
    (py "FLASH") ltac:(cbn; lia)))).
Defined.

(** ** The clock renderer *)

Lemma shown_hour_12 settings now :
  hour_24 settings = false -> 0 <= hour now < 24 ->
  shown_hour settings now =
    if hour now =? 0 then 12
    else if 13 <=? hour now then hour now - 12
    else hour now.
Proof.
  intros E H. unfold shown_hour. rewrite E. cbn [negb].
  destruct (Z.eqb_spec (hour now) 0) as [->|Hz]; [reflexivity|].
  destruct (Z.leb_spec 13 (hour now)) as [Hge|Hlt].
  - replace (hour now mod 12) with (hour now - 12)
      by (apply (Z.mod_unique _ _ 1); lia).
    destruct (Z.eqb_spec (hour now - 12) 0); [lia|reflexivity].
  - destruct (Z.eq_dec (hour now) 12) as [->|Hne]; [reflexivity|].
    rewrite Z.mod_small by lia.
    destruct (Z.eqb_spec (hour now) 0); [lia|reflexivity].
Qed.

Lemma shown_hour_bounds settings now :
  0 <= hour now < 24 -> 0 <= shown_hour settings now < 24.
Proof.
  intros H. unfold shown_hour. destruct (hour_24 settings); cbn [negb]; [lia|].
  pose proof (Z.mod_pos_bound (hour now) 12 ltac:(lia)).
  destruct (hour now mod 12 =? 0); lia.
Qed.

(** Every text the clock can render, with either colon flag: it has four
    characters, and in the 14-segment frame built from it the register byte
    is 0 and the colon bit is the flag. *)
Lemma clock_texts_checked :
  forallb (fun h =>
    forallb (fun m =>
      let text := format_2d (Z.of_nat h) ++ format_02d (Z.of_nat m) in
      (length text =? 4)%nat
      && forallb (fun c =>
           let frame := Seg14.build_frame c text in
           (hd 0 frame =? 0) && Bool.eqb (colon_bit (tl frame)) c)
         [true; false])
      (seq 0 60))
    (seq 0 24) = true.
Proof. vm_compute. reflexivity. Qed.

Lemma clock_text_frame h m c :
  0 <= h < 24 -> 0 <= m < 60 ->
  let text := format_2d h ++ format_02d m in
  length text = 4%nat
  /\ hd 0 (Seg14.build_frame c text) = 0
  /\ colon_bit (tl (Seg14.build_frame c text)) = c.
Proof.
  intros Hh Hm.
  pose proof clock_texts_checked as H.
  rewrite forallb_forall in H.
  specialize (H (Z.to_nat h) ltac:(apply in_seq; lia)).
  rewrite forallb_forall in H.
  specialize (H (Z.to_nat m) ltac:(apply in_seq; lia)).
  rewrite !Z2Nat.id in H by lia. cbv zeta in H |- *.
  apply andb_true_iff in H as [Hlen H].
  rewrite forallb_forall in H.
  assert (Hc : In c [true; false]) by (destruct c; cbn; auto).
  specialize (H c Hc). apply andb_true_iff in H as [Hhd Hbit].
  split; [now apply Nat.eqb_eq|]. split; [now apply Z.eqb_eq|].
  now apply Bool.eqb_prop.
Qed.

(** C4: the colon flag [display_time] sets is [not flash_colon or second
    even], and the colon bit of the frame it writes is that flag. *)
Theorem colon_rule localtime disp settings now :
  localtime (timezone settings) = Some now ->
  valid_time now ->
  exists d data,
    display_time localtime disp settings
      = Ok (d, [I2CWriteBlock (bus disp) (address disp) 0 data])
    /\ colon d = negb (flash_colon settings) || (second now mod 2 =? 0)
    /\ colon_bit data = colon d.
Proof.
  intros Hnow (Hh & Hm & _).
  destruct (clock_text_frame (shown_hour settings now) (minute now)
              (shown_colon settings now)
              (shown_hour_bounds settings now Hh) Hm) as (Hlen & Hhd & Hbit).
  exists (with_colon (shown_colon settings now) disp),
         (tl (Seg14.build_frame (shown_colon settings now) (time_text settings now))).
  split; [|split].
  - unfold display_time. rewrite Hnow. cbn [or_raise bind].
    unfold display, time_text. cbv zeta. rewrite Hlen. cbn [Nat.leb].
    unfold _write_four_chars, frame_write. cbv zeta.
    rewrite take_padded by exact Hlen.
    cbn [colon bus address with_colon frame_of clock_driver].
    rewrite Hhd. reflexivity.
  - cbn [colon with_colon]. unfold shown_colon.
    destruct (flash_colon settings); reflexivity.
  - exact Hbit.
Qed.

Lemma colon_rule_witness :
  exists d data,
    display_time (fun _ => Some {| hour := 0; minute := 5; second := 30 |})
                 {| bus := 1; address := 0x70; scroll_delay := 500; colon := true |}
                 default_settings
      = Ok (d, [I2CWriteBlock 1 0x70 0 data])
    /\ colon d = true
    /\ colon_bit data = colon d.
Proof.
  apply (colon_rule (fun _ => Some {| hour := 0; minute := 5; second := 30 |})
           {| bus := 1; address := 0x70; scroll_delay := 500; colon := true |}
           default_settings {| hour := 0; minute := 5; second := 30 |}).
  - reflexivity.
  - unfold valid_time; cbn; lia.
Defined.

Lemma format_2d_pads h :
  0 <= h < 10 -> format_2d h = ch " " :: str_int h.
Proof.
  intros H.
  assert (E : h = 0 \/ h = 1 \/ h = 2 \/ h = 3 \/ h = 4 \/ h = 5 \/ h = 6
              \/ h = 7 \/ h = 8 \/ h = 9) by lia.
  repeat (destruct E as [->|E]; [reflexivity|]). subst. reflexivity.
Qed.

Lemma format_02d_pads m :
  0 <= m < 10 -> format_02d m = ch "0" :: str_int m.
Proof.
  intros H.
  assert (E : m = 0 \/ m = 1 \/ m = 2 \/ m = 3 \/ m = 4 \/ m = 5 \/ m = 6
              \/ m = 7 \/ m = 8 \/ m = 9) by lia.
  repeat (destruct E as [->|E]; [reflexivity|]). subst. reflexivity.
Qed.

(** C5: in 12-hour mode hour 0 is shown as 12, hours 13 to 23 as
    hour - 12, hours 1 to 12 as they are; the hour is padded with a space
    and the minute with a zero to width 2; at 00:05:30 the text rendered is
    "1205", on either display. *)
Theorem twelve_hour_display (drv : Driver) localtime disp settings now :
  hour_24 settings = false ->
  0 <= hour now < 24 ->
  shown_hour settings now =
    (if hour now =? 0 then 12
     else if 13 <=? hour now then hour now - 12
     else hour now)
  /\ (forall h, 0 <= h < 10 -> format_2d h = ch " " :: str_int h)
  /\ (forall m, 0 <= m < 10 -> format_02d m = ch "0" :: str_int m)
  /\ time_text settings {| hour := 0; minute := 5; second := 30 |} = py "1205"
  /\ (localtime (timezone settings) = Some {| hour := 0; minute := 5; second := 30 |} ->
      display_time localtime disp settings
        = Ok (with_colon (shown_colon settings {| hour := 0; minute := 5; second := 30 |}) disp,
              [frame_write
                 (with_colon (shown_colon settings {| hour := 0; minute := 5; second := 30 |}) disp)
                 (py "1205")])).
Proof.
  intros E H.
  assert (T : time_text settings {| hour := 0; minute := 5; second := 30 |}
              = py "1205").
  { unfold time_text, shown_hour. rewrite E. reflexivity. }
  split; [now apply shown_hour_12|].
  split; [exact format_2d_pads|]. split; [exact format_02d_pads|].
  split; [exact T|].
  intros Hnow. unfold display_time. rewrite Hnow. cbn [or_raise bind].
  rewrite T. reflexivity.
Qed.

Lemma twelve_hour_display_witness :
  shown_hour default_settings {| hour := 17; minute := 42; second := 1 |} = 5.
Proof.
  exact (proj1 (twelve_hour_display clock_driver (fun _ => None)
    {| bus := 1; address := 0x70; scroll_delay := 500; colon := true |}
    default_settings {| hour := 17; minute := 42; second := 1 |}
    eq_refl ltac:(cbn; lia))).
Defined.

(** ** Event loops *)

Section EventLoopFacts.
Context {St R : Type}.
Variable at_screen : St -> screen.
Variable top : St -> world -> result (St * world).
Variable handle : event -> St -> list arrival -> world -> step St R.
Hypothesis blind : queue_blind handle.

(** A loop that is still running after [q1] goes on with what follows. *)
Lemma wait_input_app q1 q2 s w s1 w1 :
  advance top handle q1 s w = Some (s1, w1) ->
  wait_input at_screen top handle (q1 ++ q2) s w
    = wait_input at_screen top handle q2 s1 w1.
Proof.
  revert s w. induction q1 as [|[input|] q1 IH]; intros s w H; cbn in H |- *.
  - now inversion H.
  - destruct (handle input s q1 w) as [s' w'|o] eqn:Eh; [|discriminate].
    rewrite (blind _ _ _ (q1 ++ q2) _ _ _ Eh).
    destruct (top s' w') as [[s'' w'']|e]; [|discriminate].
    now apply IH.
  - now apply IH.
Qed.

Lemma wait_input_advance q s w s1 w1 :
  advance top handle q s w = Some (s1, w1) ->
  wait_input at_screen top handle q s w = Waiting (at_screen s1) w1.
Proof.
  intros H. rewrite <- (app_nil_r q).
  now rewrite (wait_input_app _ [] _ _ _ _ H).
Qed.

Lemma advance_app q1 q2 s w s1 w1 :
  advance top handle q1 s w = Some (s1, w1) ->
  advance top handle (q1 ++ q2) s w = advance top handle q2 s1 w1.
Proof.
  revert s w. induction q1 as [|[input|] q1 IH]; intros s w H; cbn in H |- *.
  - now inversion H.
  - destruct (handle input s q1 w) as [s' w'|o] eqn:Eh; [|discriminate].
    rewrite (blind _ _ _ (q1 ++ q2) _ _ _ Eh).
    destruct (top s' w') as [[s'' w'']|e]; [|discriminate].
    now apply IH.
  - now apply IH.
Qed.

(** A loop found waiting has run through all of its input. *)
Lemma waiting_advance q s w scr w1 :
  finish_final handle ->
  wait_input at_screen top handle q s w = Waiting scr w1 ->
  exists s1, advance top handle q s w = Some (s1, w1) /\ scr = at_screen s1.
Proof.
  intros final. revert s w.
  induction q as [|[input|] q IH]; intros s w H; cbn in H |- *.
  - inversion H; subst. now exists s.
  - destruct (handle input s q w) as [s' w'|o] eqn:Eh.
    + destruct (top s' w') as [[s'' w'']|e]; [|discriminate].
      now apply IH.
    + subst o. now destruct (final _ _ _ _ _ scr w1 Eh).
  - now apply IH.
Qed.
End EventLoopFacts.

(** ** The timezone screen *)

#[local] Arguments show : simpl never.
#[local] Arguments display : simpl never.
#[local] Arguments py : simpl never.
#[local] Arguments ch : simpl never.

Lemma set_timezone_blind : queue_blind set_timezone_handle.
Proof.
  intros input s q q' w s1 w1.
  destruct input; cbn; try discriminate; exact id.
Qed.

Lemma set_timezone_final : finish_final set_timezone_handle.
Proof.
  intros input s q w o scr w' H.
  destruct input; cbn in H; try discriminate;
    try (injection H as <-; discriminate);
    unfold attempt in H;
    match type of H with
    | match ?r with _ => _ end = _ =>
        destruct r as [[? ?]|?]; try discriminate;
        injection H as <-; discriminate
    end.
Qed.

Lemma same_but_zone_refl w : same_but_zone w w.
Proof. now repeat split. Qed.

Lemma same_but_zone_trans w1 w2 w3 :
  same_but_zone w1 w2 -> same_but_zone w2 w3 -> same_but_zone w1 w3.
Proof.
  intros (? & ? & ? & ? & ?) (? & ? & ? & ? & ?).
  repeat split; congruence.
Qed.

(** Zone and the untouched fields determine the settings. *)
Lemma zone_settings i w w1 w2 :
  zone_at i w1 -> zone_at i w2 ->
  same_but_zone w w1 -> same_but_zone w w2 ->
  settings w2 = settings w1.
Proof.
  intros [_ Z1] [_ Z2] (B1 & H1 & F1 & _) (B2 & H2 & F2 & _).
  assert (T : timezone (settings w2) = timezone (settings w1)) by congruence.
  destruct (settings w1), (settings w2); cbn in *. congruence.
Qed.

Lemma zone_cases i : 0 <= i < 7 ->
  i = 0 \/ i = 1 \/ i = 2 \/ i = 3 \/ i = 4 \/ i = 5 \/ i = 6.
Proof. lia. Qed.

(** Indexing inside the bounds does not raise. *)
Lemma getitem_in_bounds {A} (l : list A) i :
  0 <= i < len l -> exists x, getitem l i = Ok x /\ l !! Z.to_nat i = Some x.
Proof.
  intros H. unfold len in H.
  destruct (lookup_lt_is_Some_2 l (Z.to_nat i) ltac:(lia)) as [x Hx].
  exists x. split; [|exact Hx].
  unfold getitem, py_index. cbv zeta.
  destruct (Z.leb_spec 0 i); [|lia].
  destruct (Z.ltb_spec i (Z.of_nat (length l))); [|lia].
  cbn [andb]. rewrite Hx. reflexivity.
Qed.

Lemma zone_handle_next e i q w :
  is_next e -> 0 <= i < 7 ->
  exists tz, getitem (map snd zones) ((i + 1) mod 7) = Ok tz
    /\ set_timezone_handle e i q w
       = Continue ((i + 1) mod 7) (with_settings (with_timezone tz (settings w)) w).
Proof.
  intros He Hi.
  destruct (getitem_in_bounds (map snd zones) ((i + 1) mod 7)) as (tz & Htz & _).
  { change (len (map snd zones)) with 7. apply Z.mod_pos_bound. lia. }
  exists tz. split; [exact Htz|].
  destruct He as [-> | ->]; unfold set_timezone_handle, py_mod;
    change (len zones) with 7; cbn [Z.eqb bind]; rewrite Htz; reflexivity.
Qed.

Lemma zone_handle_previous e i q w :
  is_previous e -> 0 <= i < 7 ->
  exists tz, getitem (map snd zones) ((i - 1) mod 7) = Ok tz
    /\ set_timezone_handle e i q w
       = Continue ((i - 1) mod 7) (with_settings (with_timezone tz (settings w)) w).
Proof.
  intros He Hi.
  destruct (getitem_in_bounds (map snd zones) ((i - 1) mod 7)) as (tz & Htz & _).
  { change (len (map snd zones)) with 7. apply Z.mod_pos_bound. lia. }
  exists tz. split; [exact Htz|].
  destruct He as [-> | ->]; unfold set_timezone_handle, py_mod;
    change (len zones) with 7; cbn [Z.eqb bind]; rewrite Htz; reflexivity.
Qed.

Lemma zone_top i w :
  0 <= i < 7 -> exists name, set_timezone_top i w = Ok (i, show name w).
Proof.
  intros Hi.
  destruct (getitem_in_bounds (map fst zones) i Hi) as (name & Hname & _).
  exists name. unfold set_timezone_top. rewrite Hname. reflexivity.
Qed.

(** One event other than confirm: the loop goes round with the stepped
    selection, and the settings hold the zone shown. *)
Lemma zone_advance_step e i q w :
  zone_at i w -> e <> Enter ->
  exists w',
    advance set_timezone_top set_timezone_handle (Ev e :: q) i w
      = advance set_timezone_top set_timezone_handle q (zone_step i e) w'
    /\ zone_at (zone_step i e) w' /\ same_but_zone w w'.
Proof.
  intros [Hi Hz] He.
  assert (Hr : 0 <= zone_step i e < 7).
  { destruct e; cbn; try lia; apply Z.mod_pos_bound; lia. }
  destruct (zone_top (zone_step i e)) with (w := w) as [name0 Hname0]; [exact Hr|].
  assert (Hmove : forall tz,
    getitem (map snd zones) (zone_step i e) = Ok tz ->
    set_timezone_handle e i q w
      = Continue (zone_step i e) (with_settings (with_timezone tz (settings w)) w) ->
    exists w',
      advance set_timezone_top set_timezone_handle (Ev e :: q) i w
        = advance set_timezone_top set_timezone_handle q (zone_step i e) w'
      /\ zone_at (zone_step i e) w' /\ same_but_zone w w').
  { intros tz Htz Hh. cbn [advance]. rewrite Hh.
    destruct (zone_top (zone_step i e)
                (with_settings (with_timezone tz (settings w)) w) Hr)
      as [name Hname].
    rewrite Hname. eexists. split; [reflexivity|].
    split; [split; [exact Hr|exact Htz]|now repeat split]. }
  assert (Hstay :
    set_timezone_handle e i q w = Continue i w -> zone_step i e = i ->
    exists w',
      advance set_timezone_top set_timezone_handle (Ev e :: q) i w
        = advance set_timezone_top set_timezone_handle q (zone_step i e) w'
      /\ zone_at (zone_step i e) w' /\ same_but_zone w w').
  { intros Hh Hs. cbn [advance]. rewrite Hh, Hs in *. rewrite Hname0.
    eexists. split; [reflexivity|].
    split; [split; [exact Hi|exact Hz]|now repeat split]. }
  destruct e; try congruence.
  - destruct (zone_handle_next Up i q w (or_introl eq_refl) Hi) as (tz & ? & ?); eauto.
  - destruct (zone_handle_previous Down i q w (or_introl eq_refl) Hi) as (tz & ? & ?); eauto.
  - destruct (zone_handle_previous Left i q w (or_intror eq_refl) Hi) as (tz & ? & ?); eauto.
  - destruct (zone_handle_next Right i q w (or_intror eq_refl) Hi) as (tz & ? & ?); eauto.
  - now apply Hstay.
  - now apply Hstay.
Qed.

Lemma zone_step_range i e : 0 <= i < 7 -> 0 <= zone_step i e < 7.
Proof.
  intros H. destruct e; cbn; try lia; apply Z.mod_pos_bound; lia.
Qed.

Lemma zone_advance evs : forall i w,
  zone_at i w -> Forall (fun e => e <> Enter) evs ->
  exists w',
    advance set_timezone_top set_timezone_handle (map Ev evs) i w
      = Some (fold_left zone_step evs i, w')
    /\ zone_at (fold_left zone_step evs i) w' /\ same_but_zone w w'.
Proof.
  induction evs as [|e evs IH]; intros i w Hz Hevs.
  - exists w. split; [reflexivity|]. split; [exact Hz|apply same_but_zone_refl].
  - inversion Hevs as [|? ? He Hrest]; subst.
    destruct (zone_advance_step e i (map Ev evs) w Hz He) as (w1 & E1 & Z1 & S1).
    destruct (IH _ _ Z1 Hrest) as (w2 & E2 & Z2 & S2).
    exists w2. cbn [map fold_left]. rewrite E1, E2.
    split; [reflexivity|]. split; [exact Z2|].
    eapply same_but_zone_trans; eassumption.
Qed.

Lemma fold_next nexts : forall i,
  0 <= i < 7 -> Forall is_next nexts ->
  fold_left zone_step nexts i = (i + Z.of_nat (length nexts)) mod 7.
Proof.
  induction nexts as [|e nexts IH]; intros i Hi Hn.
  - cbn. rewrite Z.add_0_r, Z.mod_small; lia.
  - inversion Hn as [|? ? He Hrest]; subst.
    cbn [fold_left length]. rewrite IH.
    + assert (E : zone_step i e = (i + 1) mod 7) by (destruct He; subst; reflexivity).
      rewrite E, Zplus_mod_idemp_l. f_equal. lia.
    + now apply zone_step_range.
    + exact Hrest.
Qed.

Lemma next_not_enter e : is_next e -> e <> Enter.
Proof. intros [-> | ->]; discriminate. Qed.

Lemma previous_not_enter e : is_previous e -> e <> Enter.
Proof. intros [-> | ->]; discriminate. Qed.

Lemma zone_there_and_back i n p :
  0 <= i < 7 -> is_next n -> is_previous p ->
  zone_step (zone_step i n) p = i /\ zone_step (zone_step i p) n = i.
Proof.
  intros Hi Hn Hp.
  assert (N : forall j, zone_step j n = (j + 1) mod 7)
    by (intros j; destruct Hn; subst; reflexivity).
  assert (P : forall j, zone_step j p = (j - 1) mod 7)
    by (intros j; destruct Hp; subst; reflexivity).
  rewrite !N, !P.
  destruct (zone_cases i Hi) as [->|[->|[->|[->|[->|[->| ->]]]]]];
    split; reflexivity.
Qed.

(** Entering the screen with one of the seven zones stored. *)
Lemma zone_entry w :
  In (timezone (settings w)) (map snd zones) ->
  exists i, list_index (timezone (settings w)) (map snd zones) = Some i
            /\ zone_at i w.
Proof.
  intros H. unfold zone_at.
  change (map snd zones) with
    [py "America/New_York"; py "America/Chicago"; py "America/Denver";
     py "America/Los_Angeles"; py "America/Anchorage"; py "America/Honolulu";
     py "UTC"] in H |- *.
  cbn [In] in H.
  repeat (destruct H as [H|H];
          [rewrite <- H; eexists; split; [vm_compute; reflexivity|]; split;
             [lia|vm_compute; reflexivity]|]).
  destruct H.
Qed.

(** The screen after any events other than confirm. *)
Lemma set_timezone_run w evs i0 :
  list_index (timezone (settings w)) (map snd zones) = Some i0 ->
  zone_at i0 w ->
  Forall (fun e => e <> Enter) evs ->
  exists w',
    set_timezone (map Ev evs) w
      = Waiting (TimezoneSetting (fold_left zone_step evs i0)) w'
    /\ zone_at (fold_left zone_step evs i0) w' /\ same_but_zone w w'.
Proof.
  intros Hidx Hz Hevs.
  destruct (zone_top i0 w (proj1 Hz)) as [name Hname].
  assert (Hz0 : zone_at i0 (show name w)) by exact Hz.
  destruct (zone_advance evs i0 (show name w) Hz0 Hevs) as (w' & Hadv & Hz' & Hs).
  exists w'. split; [|split; [exact Hz'|]].
  - unfold set_timezone. rewrite Hidx. unfold event_loop. rewrite Hname.
    apply wait_input_advance; [apply set_timezone_blind|exact Hadv].
  - eapply same_but_zone_trans; [|exact Hs]. now repeat split.
Qed.

(** C6: on the timezone screen, seven "next" events (up or right, in any
    mix) bring the selection and the zone held in the settings back to
    what they were, from every selection the screen can reach; a
    "previous" (down or left) undoes a "next", and a "next" a "previous". *)
Theorem timezone_cycle w pre :
  In (timezone (settings w)) (map snd zones) ->
  Forall (fun e => e <> Enter) pre ->
  exists i w1,
    set_timezone (map Ev pre) w = Waiting (TimezoneSetting i) w1
    /\ 0 <= i < len zones
    /\ getitem (map snd zones) i = Ok (timezone (settings w1))
    /\ (forall nexts,
          length nexts = length zones -> Forall is_next nexts ->
          exists w2,
            set_timezone (map Ev (pre ++ nexts)) w = Waiting (TimezoneSetting i) w2
            /\ settings w2 = settings w1)
    /\ (forall n p, is_next n -> is_previous p ->
          (exists w2,
             set_timezone (map Ev (pre ++ [n; p])) w = Waiting (TimezoneSetting i) w2
             /\ settings w2 = settings w1)
          /\ (exists w2,
                set_timezone (map Ev (pre ++ [p; n])) w = Waiting (TimezoneSetting i) w2
                /\ settings w2 = settings w1)).
Proof.
  intros Hin Hpre.
  destruct (zone_entry w Hin) as (i0 & Hidx & Hz0).
  destruct (set_timezone_run w pre i0 Hidx Hz0 Hpre) as (w1 & Hrun & Hz1 & Hs1).
  set (i := fold_left zone_step pre i0) in *.
  assert (Hsame : forall more,
    Forall (fun e => e <> Enter) more ->
    fold_left zone_step more i = i ->
    exists w2,
      set_timezone (map Ev (pre ++ more)) w = Waiting (TimezoneSetting i) w2
      /\ settings w2 = settings w1).
  { intros more Hmore Hback.
    destruct (set_timezone_run w (pre ++ more) i0 Hidx Hz0) as (w2 & Hrun2 & Hz2 & Hs2).
    { apply Forall_app. now split. }
    rewrite fold_left_app in Hrun2, Hz2. fold i in Hrun2, Hz2.
    rewrite Hback in Hrun2, Hz2.
    exists w2. split; [exact Hrun2|].
    eapply zone_settings; eassumption. }
  exists i, w1. split; [exact Hrun|]. split; [exact (proj1 Hz1)|].
  split; [exact (proj2 Hz1)|]. split.
  - intros nexts Hlen Hnext. apply Hsame.
    + eapply Forall_impl; [exact Hnext|exact next_not_enter].
    + rewrite fold_next by (apply Hz1 || exact Hnext).
      rewrite Hlen. change (Z.of_nat (length zones)) with (1 * 7).
      rewrite Z.mod_add by lia. apply Z.mod_small, Hz1.
  - intros n p Hn Hp.
    destruct (zone_there_and_back i n p (proj1 Hz1) Hn Hp) as [Hnp Hpn].
    pose proof (next_not_enter n Hn). pose proof (previous_not_enter p Hp).
    split; apply Hsame; try (repeat constructor; assumption); assumption.
Qed.

Lemma timezone_cycle_witness :
  exists i w1,
    set_timezone (map Ev [Up; Plus; Left; Left])
      {| settings := default_settings;
         disp := {| bus := 1; address := 0x70; scroll_delay := 500; colon := false |};
         files := {| content := None; writable := true |};
         trace := [] |}
      = Waiting (TimezoneSetting i) w1
    /\ 0 <= i < len zones.
Proof.
  destruct (timezone_cycle
    {| settings := default_settings;
       disp := {| bus := 1; address := 0x70; scroll_delay := 500; colon := false |};
       files := {| content := None; writable := true |};
       trace := [] |}
    [Up; Plus; Left; Left]) as (i & w1 & H1 & H2 & _).
  - vm_compute. right. left. reflexivity.
  - repeat constructor; discriminate.
  - exists i, w1. split; assumption.
Defined.

(** ** The SSID selection screen *)

Lemma insert_sorted_nonempty x l : insert_sorted x l <> [].
Proof.
  destruct l as [|y l]; cbn; [discriminate|].
  destruct (str_ltb x y); [discriminate|].
  destruct (pystr_eqb x y); discriminate.
Qed.

Lemma sorted_set_nonempty l : l <> [] -> sorted_set l <> [].
Proof.
  destruct l as [|x l]; [congruence|]. intros _. cbn.
  apply insert_sorted_nonempty.
Qed.

Lemma nonempty_lines_nonempty lines :
  Exists (fun line => line <> []) lines -> nonempty_lines lines <> [].
Proof.
  intros H. apply Exists_exists in H as (line & Hin & Hne).
  intros E.
  assert (Hel : line ∈ nonempty_lines lines).
  { unfold nonempty_lines. apply list_elem_of_filter. now split. }
  rewrite E in Hel. now apply not_elem_of_nil in Hel.
Qed.

Lemma nonempty_lines_empty lines :
  Forall (fun line => line = []) lines -> nonempty_lines lines = [].
Proof.
  induction 1 as [|line lines -> _ IH]; [reflexivity|].
  unfold nonempty_lines in *. rewrite filter_cons_False; [exact IH|].
  intros H. now apply H.
Qed.

Lemma select_top_in_bounds wifi index w :
  0 <= index < len wifi ->
  exists name, select_top wifi index w = Ok (index, show name w).
Proof.
  intros H. destruct (getitem_in_bounds wifi index H) as (name & Hname & _).
  exists name. unfold select_top. now rewrite Hname.
Qed.

Lemma py_mod_in_bounds a n :
  0 < n -> exists r, py_mod a n = Ok r /\ 0 <= r < n.
Proof.
  intros H. exists (a mod n). unfold py_mod.
  destruct (Z.eqb_spec n 0); [lia|]. split; [reflexivity|].
  apply Z.mod_pos_bound. lia.
Qed.

(** With an index inside the list, the loop neither raises nor leaves the
    bounds, whatever arrives. *)
Lemma select_wait_in_bounds wifi q : forall index w,
  0 <= index < len wifi ->
  match wait_input (WifiScan wifi) (select_top wifi) (select_handle wifi) q index w with
  | Done ssid _ _ => In ssid wifi
  | Waiting scr _ => exists i, scr = WifiScan wifi i /\ 0 <= i < len wifi
  | Raised _ _ => False
  end.
Proof.
  induction q as [|[input|] q IH]; intros index w Hi; cbn [wait_input].
  - now exists index.
  - assert (Hgo : forall index' w',
      0 <= index' < len wifi ->
      select_handle wifi input index q w = Continue index' w' ->
      match
        match select_handle wifi input index q w with
        | Continue s1 w1 =>
            match select_top wifi s1 w1 with
            | Ok (s2, w2) =>
                wait_input (WifiScan wifi) (select_top wifi) (select_handle wifi) q s2 w2
            | Raise e => Raised e w1
            end
        | Finish o => o
        end
      with
      | Done ssid _ _ => In ssid wifi
      | Waiting scr _ => exists i, scr = WifiScan wifi i /\ 0 <= i < len wifi
      | Raised _ _ => False
      end).
    { intros index' w' Hi' Hh. rewrite Hh.
      destruct (select_top_in_bounds wifi index' w' Hi') as [name ->].
      now apply IH. }
    destruct (py_mod_in_bounds (index + 1) (len wifi) ltac:(lia)) as (up & Hup & Hupr).
    destruct (py_mod_in_bounds (index - 1) (len wifi) ltac:(lia)) as (dn & Hdn & Hdnr).
    destruct (getitem_in_bounds wifi index Hi) as (ssid & Hssid & Hlook).
    destruct input.
    + apply (Hgo up w Hupr). cbn. now rewrite Hup.
    + apply (Hgo dn w Hdnr). cbn. now rewrite Hdn.
    + apply (Hgo dn w Hdnr). cbn. now rewrite Hdn.
    + apply (Hgo up w Hupr). cbn. now rewrite Hup.
    + cbn [select_handle]. rewrite Hssid. cbn [attempt].
      apply list_elem_of_In. eapply list_elem_of_lookup_2. exact Hlook.
    + now apply (Hgo index w Hi).
    + now apply (Hgo index w Hi).
  - now apply IH.
Qed.

(** C10: with at least one SSID in the scan, the selection index stays a
    valid index of the list under every sequence of arrivals, and a
    confirmed SSID is one of the list; with none, the first display step
    raises IndexError before any frame is written, and the wrap of the
    index would divide by zero. *)
Theorem ssid_selection_bounds env lines q w :
  nmcli_list env = Some lines ->
  let wifi := sorted_set (nonempty_lines lines) in
  (Exists (fun line => line <> []) lines ->
     wifi <> []
     /\ forall q w,
          match select_ssid wifi q w with
          | Done ssid _ _ => In ssid wifi
          | Waiting scr _ => exists i, scr = WifiScan wifi i /\ 0 <= i < len wifi
          | Raised _ _ => False
          end)
  /\ (Forall (fun line => line = []) lines ->
        wifi = []
        /\ set_wifi env q w = Raised IndexError (emit [Run scan_argv] w)
        /\ select_handle wifi Up 0 q w = Finish (Raised ZeroDivisionError w)).
Proof.
  intros Hscan wifi. split.
  - intros Hex.
    assert (Hne : wifi <> []).
    { apply sorted_set_nonempty. now apply nonempty_lines_nonempty. }
    split; [exact Hne|]. intros q' w'.
    assert (Hlen : 0 <= 0 < len wifi).
    { unfold len. destruct wifi; [congruence|]. cbn [length]. lia. }
    unfold select_ssid, event_loop.
    destruct (select_top_in_bounds wifi 0 w' Hlen) as [name ->].
    now apply select_wait_in_bounds.
  - intros Hall.
    assert (E : wifi = []).
    { unfold wifi. now rewrite nonempty_lines_empty. }
    split; [exact E|]. split.
    + unfold set_wifi. rewrite Hscan. fold wifi. rewrite E. reflexivity.
    + rewrite E. reflexivity.
Qed.

Lemma ssid_selection_bounds_witness :
  let env := {| nmcli_list := Some [py "home"; []; py "cafe"; py "home"];
                nmcli_add := fun _ _ => Some 0;
                nmcli_up := fun _ => Some 0;
                wlan0_inet := Some None |} in
  sorted_set (nonempty_lines [py "home"; []; py "cafe"; py "home"]) <> [].
Proof.
  intros env.
  refine (proj1 (proj1 (ssid_selection_bounds env
            [py "home"; []; py "cafe"; py "home"] []
            {| settings := default_settings;
               disp := {| bus := 1; address := 0x70; scroll_delay := 500;
                          colon := false |};
               files := {| content := None; writable := true |};
               trace := [] |} eq_refl) _)).
  apply Exists_cons_hd. discriminate.
Defined.

(** ** The password entry screen *)

Lemma entry_blind : queue_blind entry_handle.
Proof.
intros input s q q' w s1 w1.
destruct input; cbn; try exact id.
destruct (done s); [discriminate|exact id].
Qed.

Lemma entry_final : finish_final entry_handle.
Proof.
intros input s q w o scr w' H.
destruct input; cbn in H; try discriminate;
  try (destruct (done s); [injection H as <-; discriminate|]);
  unfold attempt in H;
  match type of H with
  | match ?r with _ => _ end = _ =>
      destruct r; try discriminate; injection H as <-; discriminate
  end.
Qed.

Lemma symbol_in_bounds x :
  0 <= x < len symbols ->
  exists sym, getitem (map snd symbols) x = Ok sym.
Proof.
intros H.
destruct (getitem_in_bounds (map snd symbols) x) as (sym & Hsym & _).
- unfold len in *. now rewrite length_map.
- now exists sym.
Qed.

(** The top of the loop body with the cursor on the buffer. *)
Lemma entry_top_inside e w x :
  0 <= index e < len (password e) ->
  Forall (fun x => 0 <= x < len symbols) (password e) ->
  password e !! Z.to_nat (index e) = Some x ->
  exists w',
    entry_top e w
      = Ok ({| password := password e; index := index e; letter := x;
               done := done e; pw := pw e |}, w')
    /\ settings w' = settings w.
Proof.
intros Hi Hall Hx.
destruct (getitem_in_bounds (password e) (index e) Hi) as (y & Hy & Hy').
assert (y = x) as -> by congruence.
assert (Hr : 0 <= x < len symbols).
{ eapply (proj1 (Forall_lookup _ _) Hall). exact Hx. }
destruct (symbol_in_bounds x Hr) as [sym Hsym].
unfold entry_top.
destruct (Z.ltb_spec (len (password e)) (index e + 1)) as [?|_]; [lia|].
rewrite Hy. cbn [bind done letter].
destruct (done e); cbn [negb].
- eexists; split; reflexivity.
- rewrite Hsym. cbn [bind]. eexists; split; reflexivity.
Qed.

(** The top of the loop body with the cursor one past the end. *)
Lemma entry_top_append e w :
  index e = len (password e) ->
  exists w',
    entry_top e w
      = Ok ({| password := password e ++ [0]; index := index e; letter := 0;
               done := done e; pw := pw e |}, w')
    /\ settings w' = settings w.
Proof.
intros Hi.
destruct (symbol_in_bounds 0 ltac:(change (len symbols) with 94; lia)) as [sym Hsym].
unfold entry_top.
destruct (Z.ltb_spec (len (password e)) (index e + 1)) as [_|?]; [|lia].
cbn [bind done letter].
destruct (done e); cbn [negb].
- eexists; split; reflexivity.
- rewrite Hsym. cbn [bind]. eexists; split; reflexivity.
Qed.

Lemma entry_top_ok e w :
  entry_at_top e ->
  exists e' w', entry_top e w = Ok (e', w') /\ entry_waiting e'
                /\ settings w' = settings w.
Proof.
intros [Hi Hall].
destruct (Z.eq_dec (index e) (len (password e))) as [E|NE].
- destruct (entry_top_append e w E) as (w' & -> & Hs).
  eexists _, w'. split; [reflexivity|]. split; [|exact Hs].
  unfold entry_waiting, len in *. cbn [password index letter].
  rewrite length_app. cbn [length]. split; [lia|]. split.
  + apply Forall_app. split; [exact Hall|].
    constructor; [|constructor]. change (Z.of_nat (length symbols)) with 94. lia.
  + rewrite E, Nat2Z.id. apply list_lookup_middle. reflexivity.
- assert (Hin : 0 <= index e < len (password e)) by lia.
  destruct (getitem_in_bounds (password e) (index e) Hin) as (x & _ & Hx).
  destruct (entry_top_inside e w x Hin Hall Hx) as (w' & -> & Hs).
  eexists _, w'. split; [reflexivity|]. split; [|exact Hs].
  unfold entry_waiting. cbn [password index letter]. auto.
Qed.

Lemma setitem_in_bounds {A} (l : list A) i v :
  0 <= i < len l -> setitem l i v = Ok (<[Z.to_nat i := v]> l).
Proof.
intros H. unfold setitem, len in *. cbv zeta.
destruct (Z.leb_spec 0 i); [|lia].
destruct (Z.ltb_spec i (Z.of_nat (length l))); [|lia].
reflexivity.
Qed.

Lemma symbol_mod a : py_mod a (len symbols) = Ok (a mod len symbols).
Proof. reflexivity. Qed.

Lemma symbol_mod_range a : 0 <= a mod len symbols < len symbols.
Proof. apply Z.mod_pos_bound. change (len symbols) with 94. lia. Qed.

Lemma entry_waiting_letter e : entry_waiting e -> 0 <= letter e < len symbols.
Proof.
intros (_ & Hall & Hx). eapply (proj1 (Forall_lookup _ _) Hall). exact Hx.
Qed.

(** Storing a symbol index under the cursor and going round the loop. *)
Lemma entry_store e q w v (input : event) :
  entry_waiting e -> 0 <= v < len symbols ->
  entry_handle input e q w
    = Continue {| password := <[Z.to_nat (index e) := v]> (password e);
                  index := index e; letter := letter e; done := false;
                  pw := pw e |} w ->
  exists w',
    advance entry_top entry_handle (Ev input :: q) e w
      = advance entry_top entry_handle q
          {| password := <[Z.to_nat (index e) := v]> (password e);
             index := index e; letter := v; done := false; pw := pw e |} w'
    /\ entry_waiting
         {| password := <[Z.to_nat (index e) := v]> (password e);
            index := index e; letter := v; done := false; pw := pw e |}
    /\ settings w' = settings w.
Proof.
intros (Hi & Hall & Hx) Hv Hh.
assert (Hlen : len (<[Z.to_nat (index e) := v]> (password e)) = len (password e)).
{ unfold len. now rewrite length_insert. }
assert (Hall' : Forall (fun x => 0 <= x < len symbols)
                       (<[Z.to_nat (index e) := v]> (password e))).
{ apply Forall_insert; assumption. }
assert (Hlook : <[Z.to_nat (index e) := v]> (password e) !! Z.to_nat (index e) = Some v).
{ apply list_lookup_insert_eq. unfold len in Hi. lia. }
destruct (entry_top_inside
            {| password := <[Z.to_nat (index e) := v]> (password e);
               index := index e; letter := letter e; done := false; pw := pw e |}
            w v) as (w' & Htop & Hs); cbn [password index]; try assumption.
{ rewrite Hlen. exact Hi. }
exists w'. cbn [advance]. rewrite Hh, Htop. cbn [password index letter done pw].
split; [reflexivity|]. split; [|exact Hs].
unfold entry_waiting. cbn [password index letter]. rewrite Hlen. auto.
Qed.

Lemma entry_up_step e q w :
  entry_waiting e ->
  exists w',
    advance entry_top entry_handle (Ev Up :: q) e w
      = advance entry_top entry_handle q (entry_up e) w'
    /\ entry_waiting (entry_up e) /\ settings w' = settings w.
Proof.
intros He. apply (entry_store e q w _ Up He (symbol_mod_range _)).
cbn [entry_handle]. rewrite symbol_mod. cbn [bind].
rewrite setitem_in_bounds by apply He. reflexivity.
Qed.

Lemma entry_down_step e q w :
  entry_waiting e ->
  exists w',
    advance entry_top entry_handle (Ev Down :: q) e w
      = advance entry_top entry_handle q (entry_down e) w'
    /\ entry_waiting (entry_down e) /\ settings w' = settings w.
Proof.
intros He. apply (entry_store e q w _ Down He (symbol_mod_range _)).
cbn [entry_handle]. rewrite symbol_mod. cbn [bind].
rewrite setitem_in_bounds by apply He. reflexivity.
Qed.

Lemma entry_ups n : forall e w,
  entry_waiting e ->
  exists w',
    advance entry_top entry_handle (map Ev (replicate n Up)) e w
      = Some (Nat.iter n entry_up e, w')
    /\ settings w' = settings w.
Proof.
induction n as [|n IH]; intros e w He.
- exists w. split; reflexivity.
- cbn [replicate map].
  destruct (entry_up_step e (map Ev (replicate n Up)) w He) as (w1 & E1 & He1 & Hs1).
  destruct (IH (entry_up e) w1 He1) as (w2 & E2 & Hs2).
  exists w2. rewrite E1, E2, Nat.iter_succ_r. split; [reflexivity|congruence].
Qed.

(** [n + 1] times "up" add [n + 1] to the symbol index, modulo the table. *)
Lemma entry_up_iter e n :
  Nat.iter (S n) entry_up e
  = {| password := <[Z.to_nat (index e) := (letter e + Z.of_nat (S n)) mod len symbols]>
                     (password e);
       index := index e;
       letter := (letter e + Z.of_nat (S n)) mod len symbols;
       done := false;
       pw := pw e |}.
Proof.
induction n as [|n IH].
- reflexivity.
- rewrite Nat.iter_succ, IH. unfold entry_up. cbn [password index letter pw].
  rewrite list_insert_insert_eq, Zplus_mod_idemp_l.
  replace (letter e + Z.of_nat (S n) + 1) with (letter e + Z.of_nat (S (S n))) by lia.
  reflexivity.
Qed.

(** As many "up" as the table has symbols change nothing but the preview
    flag. *)
Lemma entry_up_period e :
  entry_waiting e -> Nat.iter K entry_up e = entry_edited e.
Proof.
intros He. pose proof (entry_waiting_letter e He) as Hl.
destruct He as (Hi & Hall & Hx).
change K with (S 93). rewrite entry_up_iter.
change (Z.of_nat 94) with (1 * len symbols).
rewrite Z.mod_add by (change (len symbols) with 94; lia).
rewrite Z.mod_small by exact Hl.
rewrite list_insert_id by exact Hx. reflexivity.
Qed.

Lemma entry_handle_keeps input e q w e' w' :
  entry_waiting e ->
  entry_handle input e q w = Continue e' w' ->
  entry_at_top e'.
Proof.
intros (Hi & Hall & Hx) H.
assert (Hins : forall v, 0 <= v < len symbols ->
  entry_at_top {| password := <[Z.to_nat (index e) := v]> (password e);
                  index := index e; letter := letter e; done := false;
                  pw := pw e |}).
{ intros v Hv. unfold entry_at_top, len. cbn [password index].
  rewrite length_insert. split; [unfold len in Hi; lia|].
  now apply Forall_insert. }
destruct input; cbn [entry_handle] in H.
- rewrite symbol_mod in H. cbn [bind] in H.
  rewrite setitem_in_bounds in H by exact Hi. injection H as <- _.
  apply Hins, symbol_mod_range.
- rewrite symbol_mod in H. cbn [bind] in H.
  rewrite setitem_in_bounds in H by exact Hi. injection H as <- _.
  apply Hins, symbol_mod_range.
- injection H as <- _. unfold entry_at_top. cbn [password index].
  split; [lia|exact Hall].
- injection H as <- _. unfold entry_at_top. cbn [password index].
  split; [lia|exact Hall].
- destruct (done e); [discriminate|].
  destruct (spell (password e)); [|discriminate].
  injection H as <- _. unfold entry_at_top. cbn [password index].
  split; [lia|exact Hall].
- injection H as <- _. split; [lia|exact Hall].
- injection H as <- _. split; [lia|exact Hall].
Qed.

Lemma entry_advance_keeps q : forall e w e' w',
  entry_waiting e ->
  advance entry_top entry_handle q e w = Some (e', w') ->
  entry_waiting e'.
Proof.
induction q as [|[input|] q IH]; intros e w e' w' He H; cbn [advance] in H.
- now injection H as <- _.
- destruct (entry_handle input e q w) as [s1 w1|o] eqn:Eh; [|discriminate].
  pose proof (entry_handle_keeps _ _ _ _ _ _ He Eh) as Htop.
  destruct (entry_top_ok s1 w1 Htop) as (s2 & w2 & Et & Hs2 & _).
  rewrite Et in H. eapply IH; eassumption.
- eapply IH; eassumption.
Qed.

Lemma entry_start_at_top : entry_at_top entry_start.
Proof. split; [unfold len; cbn; lia|constructor]. Qed.

(** C7: on the password entry screen, wherever the cursor stands, as many
    "up" events as the table has symbols (K = 94) leave the symbol under
    the cursor, the buffer and the cursor as they were; "down" steps the
    symbol index back modulo K, so from index 0 it goes to K - 1. *)
Theorem password_symbol_cycle ssid pre w e1 w1 :
  enter_password ssid (map Ev pre) w = Waiting (WifiPasswordEntry ssid e1) w1 ->
  K = 94%nat
  /\ getitem (password e1) (index e1) = Ok (letter e1)
  /\ 0 <= letter e1 < Z.of_nat K
  /\ (exists e2 w2,
        enter_password ssid (map Ev (pre ++ replicate K Up)) w
          = Waiting (WifiPasswordEntry ssid e2) w2
        /\ password e2 = password e1 /\ index e2 = index e1
        /\ letter e2 = letter e1)
  /\ (exists e2 w2,
        enter_password ssid (map Ev (pre ++ [Down])) w
          = Waiting (WifiPasswordEntry ssid e2) w2
        /\ index e2 = index e1
        /\ getitem (password e2) (index e2) = Ok ((letter e1 - 1) mod Z.of_nat K))
  /\ (0 - 1) mod Z.of_nat K = Z.of_nat K - 1.
Proof.
intros H. unfold enter_password, event_loop in *.
destruct (entry_top_ok entry_start w entry_start_at_top) as (e0 & w0 & Et & He0 & _).
rewrite Et in H |- *.
destruct (waiting_advance _ _ _ _ _ _ _ _ entry_final H) as (s1 & Hadv & Escr).
injection Escr as <-.
pose proof (entry_advance_keeps _ _ _ _ _ He0 Hadv) as He1.
pose proof (entry_waiting_letter e1 He1) as Hl.
destruct He1 as (Hi & Hall & Hx).
assert (He1 : entry_waiting e1) by (split; [|split]; assumption).
split; [reflexivity|]. split.
{ destruct (getitem_in_bounds (password e1) (index e1) Hi) as (x & Hg & Hx').
  congruence. }
split; [exact Hl|]. split; [|split; [|reflexivity]].
- destruct (entry_ups K e1 w1 He1) as (w2 & Hups & _).
  rewrite entry_up_period in Hups by exact He1.
  exists (entry_edited e1), w2. split; [|now repeat split].
  rewrite map_app.
  rewrite (wait_input_app _ _ _ entry_blind _ _ _ _ _ _ Hadv).
  apply wait_input_advance; [exact entry_blind|exact Hups].
- destruct (entry_down_step e1 [] w1 He1) as (w2 & Hdown & He2 & _).
  exists (entry_down e1), w2. split; [|split; [reflexivity|]].
  + rewrite map_app.
    rewrite (wait_input_app _ _ _ entry_blind _ _ _ _ _ _ Hadv).
    apply wait_input_advance; [exact entry_blind|exact Hdown].
  + destruct He2 as (Hi2 & _ & Hx2).
    destruct (getitem_in_bounds _ _ Hi2) as (x & Hg & Hx2').
    assert (x = letter (entry_down e1)) as -> by congruence.
    exact Hg.
Qed.

Lemma password_symbol_cycle_witness :
  exists e1 w1,
    enter_password (py "home") (map Ev [Right; Up; Up; Left; Down]) sample_world
      = Waiting (WifiPasswordEntry (py "home") e1) w1
    /\ 0 <= letter e1 < Z.of_nat K.
Proof.
eexists _, _. split.
- vm_compute. reflexivity.
- eapply (password_symbol_cycle (py "home") [Right; Up; Up; Left; Down] sample_world).
  vm_compute. reflexivity.
Defined.

(** ** The connect phase *)

Lemma display_four {drv : Driver} d (s : pystr) :
  length s = 4%nat -> display d s = [frame_write d s].
Proof.
intros H. unfold display, _write_four_chars. cbv zeta. rewrite H. cbn [Nat.leb].
now rewrite take_padded.
Qed.

(** C8: the connect phase always returns; it shows GOOD when the profile
    was added and the connection came up, and FAIL when either step fails
    or raises; the message is one frame, followed by the two-second
    dwell; each nmcli step runs at most once; once the password is
    committed [set_wifi] returns, and the menu goes back to the clock
    state. *)
Theorem wifi_connect_outcome env ssid pw w :
  let w' := connect env ssid pw w in
  let msg := if connect_succeeds env ssid pw then py "GOOD" else py "FAIL" in
  (exists runs,
     trace w' = trace w ++ runs ++ [frame_write (disp w) msg; Sleep 2000]
     /\ (runs = [Run (add_argv ssid pw)]
         \/ runs = [Run (add_argv ssid pw); Run (up_argv ssid)]))
  /\ settings w' = settings w /\ disp w' = disp w /\ files w' = files w
  /\ (forall lines q q1 w1 q2 w2,
        nmcli_list env = Some lines ->
        select_ssid (sorted_set (nonempty_lines lines)) q (emit [Run scan_argv] w)
          = Done ssid q1 w1 ->
        enter_password ssid q1 (sleep 2000 (show (py "ENTER PASSWORD") w1))
          = Done pw q2 w2 ->
        set_wifi env q w = Done tt q2 (connect env ssid pw w2)
        /\ menu_handle env Enter 3 q w
           = Finish (Done StClock q2 (connect env ssid pw w2))).
Proof.
cbv zeta. split; [|split; [|split; [|split]]].
- assert (Hgood : display (disp w) (py "GOOD") = [frame_write (disp w) (py "GOOD")])
    by (apply display_four; reflexivity).
  assert (Hfail : display (disp w) (py "FAIL") = [frame_write (disp w) (py "FAIL")])
    by (apply display_four; reflexivity).
  unfold connect, connect_succeeds.
  destruct (nmcli_add env ssid pw) as [[|?|?]|];
    [destruct (nmcli_up env ssid) as [[|?|?]|]| | |];
    cbn [Z.eqb negb]; unfold sleep, show, emit; cbn [trace disp];
    rewrite ?Hgood, ?Hfail, <- ?app_assoc;
    first [ exists [Run (add_argv ssid pw)];
            split; [reflexivity|left; reflexivity]
          | exists [Run (add_argv ssid pw); Run (up_argv ssid)];
            split; [reflexivity|right; reflexivity] ].
- unfold connect.
  destruct (nmcli_add env ssid pw) as [[|?|?]|];
    [destruct (nmcli_up env ssid) as [[|?|?]|]| | |]; reflexivity.
- unfold connect.
  destruct (nmcli_add env ssid pw) as [[|?|?]|];
    [destruct (nmcli_up env ssid) as [[|?|?]|]| | |]; reflexivity.
- unfold connect.
  destruct (nmcli_add env ssid pw) as [[|?|?]|];
    [destruct (nmcli_up env ssid) as [[|?|?]|]| | |]; reflexivity.
- intros lines q q1 w1 q2 w2 Hscan Hsel Hpw.
  assert (E : set_wifi env q w = Done tt q2 (connect env ssid pw w2)).
  { unfold set_wifi. rewrite Hscan, Hsel. cbn [and_then]. rewrite Hpw. reflexivity. }
  split; [exact E|].
  unfold menu_handle. change (getitem menu_items 3) with (@Ok pystr (py "WIFI")).
  cbn [attempt].
  change (pystr_eqb (py "WIFI") (py "FLASH")) with false.
  change (pystr_eqb (py "WIFI") (py "24H")) with false.
  change (pystr_eqb (py "WIFI") (py "ZONE")) with false.
  change (pystr_eqb (py "WIFI") (py "WIFI")) with true.
  cbn iota. unfold back_to_clock. rewrite E. reflexivity.
Qed.

Lemma wifi_connect_outcome_witness :
  exists w2,
    menu_handle sample_env Enter 3 (map Ev [Enter; Up; Enter; Enter]) sample_world
      = Finish (Done StClock [] (connect sample_env (py "cafe") (py "b") w2)).
Proof.
eexists.
refine (proj2 (proj2 (proj2 (proj2 (proj2
          (wifi_connect_outcome sample_env (py "cafe") (py "b") sample_world))))
          [py "home"; []; py "cafe"; py "home"]
          (map Ev [Enter; Up; Enter; Enter]) _ _ _ _ eq_refl _ _)).
- vm_compute. reflexivity.
- vm_compute. reflexivity.
Defined.

(** ** The FLASH item of the menu *)

Lemma pystr_eqb_refl a : pystr_eqb a a = true.
Proof. unfold pystr_eqb. now apply bool_decide_eq_true_2. Qed.

Lemma save_settings_settings w : settings (save_settings w) = settings w.
Proof. reflexivity. Qed.

Lemma save_settings_content w :
  writable (files w) = true ->
  content (files (save_settings w)) = Some (dumped (settings w))
  /\ writable (files (save_settings w)) = true.
Proof. intros H. unfold save_settings, save. cbn. rewrite H. now split. Qed.

Lemma save_settings_trace w :
  trace (save_settings w) = trace w ++ [FileDump (dumped (settings w))].
Proof. reflexivity. Qed.

(** Confirm on the FLASH screen: save and return. *)
Lemma set_flash_confirm q w :
  exists w0,
    set_flash (Ev Enter :: q) w = Done tt q (save_settings w0)
    /\ settings w0 = settings w /\ files w0 = files w.
Proof.
unfold set_flash, event_loop.
cbn [set_flash_top wait_input set_flash_handle].
eexists. split; [reflexivity|]. now split.
Qed.

(** A direction, then confirm: flip, save and return. *)
Lemma set_flash_toggle d q w :
  is_direction d ->
  exists w0,
    set_flash (Ev d :: Ev Enter :: q) w = Done tt q (save_settings w0)
    /\ settings w0 = with_flash_colon (negb (flash_colon (settings w))) (settings w)
    /\ files w0 = files w.
Proof.
intros [->|[->|[->| ->]]]; unfold set_flash, event_loop;
  cbn [set_flash_top wait_input set_flash_handle];
  (eexists; split; [reflexivity|]; now split).
Qed.

Lemma menu_enter_flash env q w :
  menu_loop env (Ev Enter :: q) w
  = and_then (set_flash q (show (py "FLASH") w)) (fun _ q w => Done StClock q w).
Proof.
unfold menu_loop, event_loop.
change (menu_top 0 w) with (Ok (0, show (py "FLASH") w)).
cbn [wait_input menu_handle].
change (getitem menu_items 0) with (@Ok pystr (py "FLASH")).
cbn [attempt]. rewrite pystr_eqb_refl. reflexivity.
Qed.

(** From the clock state, "right" alone in its pass and then confirm: the
    pass goes on as the FLASH screen does. *)
Lemma main_iteration_flash env t v w now q :
  state v = StClock ->
  localtime t (timezone (settings w)) = Some now ->
  exists w0,
    settings w0 = settings w /\ files w0 = files w
    /\ main_iteration env t (Ev Right :: Idle :: Ev Enter :: q) v w
       = and_then (set_flash q w0) (fun _ q w =>
           let '(v, w) := countdown {| state := StClock; save_time := save_time v |} w in
           Done v q (emit [SleepToNextSecond] w)).
Proof.
intros Hv Hnow. unfold main_iteration, clock_pass. rewrite Hv.
unfold display_time. cbn [settings with_disp disp]. rewrite Hnow.
cbn [or_raise bind drain state save_time and_then].
unfold menu_pass. rewrite menu_enter_flash.
match goal with |- context [set_flash q ?W] => exists W end.
split; [reflexivity|]. split; [reflexivity|].
destruct (set_flash q _); reflexivity.
Qed.

Lemma countdown_keeps v w :
  state (countdown v w).1 = state v
  /\ settings (countdown v w).2 = settings w
  /\ (forall e, In e (trace w) -> In e (trace (countdown v w).2))
  /\ (writable (files w) = true ->
      content (files w) = Some (dumped (settings w)) ->
      content (files (countdown v w).2) = Some (dumped (settings w))).
Proof.
unfold countdown.
destruct (0 <? save_time v); [|now repeat split].
destruct (save_time v - 1 =? 0); cbn [fst snd state]; [|now repeat split].
split; [reflexivity|]. split; [reflexivity|]. split.
- intros e He. rewrite save_settings_trace. apply in_or_app. now left.
- intros Hw _. now apply save_settings_content.
Qed.

(** The end of a pass in which a screen has saved and returned. *)
Lemma pass_after_save v q w0 :
  exists v1 w1,
    (let '(v, w) := countdown {| state := StClock; save_time := save_time v |}
                              (save_settings w0) in
     Done v q (emit [SleepToNextSecond] w)) = Done v1 q w1
    /\ state v1 = StClock
    /\ settings w1 = settings w0
    /\ In (FileDump (dumped (settings w0))) (trace w1)
    /\ (writable (files w0) = true ->
        content (files w1) = Some (dumped (settings w0))).
Proof.
pose proof (countdown_keeps {| state := StClock; save_time := save_time v |}
              (save_settings w0)) as (Hst & Hset & Htr & Hfile).
destruct (countdown _ (save_settings w0)) as [v1 w1]. cbn [fst snd] in *.
exists v1, (emit [SleepToNextSecond] w1).
split; [reflexivity|]. split; [exact Hst|]. split; [exact Hset|]. split.
- cbn [trace emit]. apply in_or_app. left. apply Htr.
  rewrite save_settings_trace. apply in_or_app. right. now left.
- intros Hw. cbn [files emit].
  destruct (save_settings_content w0 Hw) as [Hc Hw'].
  now apply Hfile.
Qed.

(** C3, the claim as stated fails: after [right, confirm] the FLASH screen
    is open and [flash_colon] is what it was; one more confirm saves that
    value and returns to the clock state.  With both events already queued
    when the clock state drains the queue, the confirm toggles the
    brightness instead, and [flash_colon] is not flipped either. *)
Lemma flash_confirm_counterexample :
  let before := flash_colon (settings sample_world) in
  let opened := main_iteration sample_env sample_tick
                  [Ev Right; Idle; Ev Enter] start_vars sample_world in
  let closed := main_iteration sample_env sample_tick
                  [Ev Right; Idle; Ev Enter; Ev Enter] start_vars sample_world in
  let queued := main_iteration sample_env sample_tick
                  [Ev Right; Ev Enter; Ev Enter] start_vars sample_world in
  flash_colon (settings (world_of opened)) = before
  /\ state <$> returned closed = Some StClock
  /\ flash_colon (settings (world_of closed)) = before
  /\ content (files (world_of closed)) = Some (dumped (settings sample_world))
  /\ flash_colon (settings (world_of queued)) = before.
Proof. vm_compute. repeat split. Qed.

(** C3, amended: from the clock state, "right" and then confirm open the
    FLASH screen and leave [flash_colon] as it is; a direction event on
    that screen flips it; the next confirm saves the settings as they are
    then and returns to the clock state, so that the file, where it can be
    written, holds the flipped value (or the old one, with no direction
    event in between). *)
Theorem flash_menu_roundtrip env t v w now d :
  state v = StClock ->
  localtime t (timezone (settings w)) = Some now ->
  is_direction d ->
  (exists w0,
     main_iteration env t [Ev Right; Idle; Ev Enter] v w = Waiting FlashSetting w0
     /\ settings w0 = settings w)
  /\ (exists v1 w1,
        main_iteration env t [Ev Right; Idle; Ev Enter; Ev d; Ev Enter] v w
          = Done v1 [] w1
        /\ state v1 = StClock
        /\ settings w1 = with_flash_colon (negb (flash_colon (settings w))) (settings w)
        /\ In (FileDump (dumped (settings w1))) (trace w1)
        /\ (writable (files w) = true ->
            content (files w1) = Some (dumped (settings w1))))
  /\ (exists v1 w1,
        main_iteration env t [Ev Right; Idle; Ev Enter; Ev Enter] v w
          = Done v1 [] w1
        /\ state v1 = StClock
        /\ settings w1 = settings w
        /\ In (FileDump (dumped (settings w1))) (trace w1)
        /\ (writable (files w) = true ->
            content (files w1) = Some (dumped (settings w1)))).
Proof.
intros Hv Hnow Hd. split; [|split].
- destruct (main_iteration_flash env t v w now [] Hv Hnow) as (w0 & Hs & _ & ->).
  unfold set_flash, event_loop. cbn [set_flash_top wait_input and_then].
  eexists. split; [reflexivity|exact Hs].
- destruct (main_iteration_flash env t v w now [Ev d; Ev Enter] Hv Hnow)
    as (w0 & Hs & Hf & ->).
  destruct (set_flash_toggle d [] w0 Hd) as (w1 & -> & Hs1 & Hf1).
  cbn [and_then].
  destruct (pass_after_save v [] w1) as (v2 & w2 & -> & Hst & Hs2 & Htr & Hfile).
  exists v2, w2. split; [reflexivity|]. split; [exact Hst|].
  rewrite Hs2, Hs1, Hs. split; [reflexivity|].
  split; [now rewrite <- Hs, <- Hs1|].
  intros Hw. rewrite <- Hs, <- Hs1. apply Hfile. now rewrite Hf1, Hf.
- destruct (main_iteration_flash env t v w now [Ev Enter] Hv Hnow)
    as (w0 & Hs & Hf & ->).
  destruct (set_flash_confirm [] w0) as (w1 & -> & Hs1 & Hf1).
  cbn [and_then].
  destruct (pass_after_save v [] w1) as (v2 & w2 & -> & Hst & Hs2 & Htr & Hfile).
  exists v2, w2. split; [reflexivity|]. split; [exact Hst|].
  rewrite Hs2, Hs1, Hs. split; [reflexivity|].
  split; [now rewrite <- Hs, <- Hs1|].
  intros Hw. rewrite <- Hs, <- Hs1. apply Hfile. now rewrite Hf1, Hf.
Qed.

Lemma flash_menu_roundtrip_witness :
  exists v1 w1,
    main_iteration sample_env sample_tick
      [Ev Right; Idle; Ev Enter; Ev Up; Ev Enter] start_vars sample_world
      = Done v1 [] w1
    /\ state v1 = StClock
    /\ settings w1 = with_flash_colon false default_settings.
Proof.
destruct (flash_menu_roundtrip sample_env sample_tick start_vars sample_world
            {| hour := 0; minute := 5; second := 30 |} Up
            eq_refl eq_refl (or_introl eq_refl))
  as (_ & (v1 & w1 & H1 & H2 & H3 & _) & _).
exists v1, w1. split; [exact H1|]. split; [exact H2|exact H3].
Defined.

(** ** The trace only grows *)

Lemma extends_refl w : extends w w.
Proof. exists []. now rewrite app_nil_r. Qed.

Lemma extends_trans w1 w2 w3 : extends w1 w2 -> extends w2 w3 -> extends w1 w3.
Proof.
intros [a Ha] [b Hb]. exists (a ++ b). now rewrite Hb, Ha, app_assoc.
Qed.

Lemma extends_emit w0 w out : extends w0 w -> extends w0 (emit out w).
Proof.
intros H. eapply extends_trans; [exact H|]. now exists out.
Qed.

Lemma extends_show w0 w text : extends w0 w -> extends w0 (show text w).
Proof. apply extends_emit. Qed.

Lemma extends_sleep w0 w ms : extends w0 w -> extends w0 (sleep ms w).
Proof. apply extends_emit. Qed.

Lemma extends_save w0 w : extends w0 w -> extends w0 (save_settings w).
Proof.
intros H. eapply extends_trans; [exact H|].
eexists. apply save_settings_trace.
Qed.

Lemma extends_with_settings w0 w s : extends w0 w -> extends w0 (with_settings s w).
Proof. exact id. Qed.

Lemma extends_with_disp w0 w d : extends w0 w -> extends w0 (with_disp d w).
Proof. exact id. Qed.

Create HintDb grows.
#[local] Hint Resolve extends_refl extends_emit extends_show extends_sleep
  extends_save extends_with_settings extends_with_disp : grows.

Lemma and_then_grows {A B} (o : outcome A)
    (k : A -> list arrival -> world -> outcome B) w0 :
  extends w0 (world_of o) ->
  (forall a q w, extends w0 w -> extends w0 (world_of (k a q w))) ->
  extends w0 (world_of (and_then o k)).
Proof. intros Ho Hk. destruct o; cbn in *; auto. Qed.

Section Grows.
Context {St R : Type}.
Variable at_screen : St -> screen.
Variable top : St -> world -> result (St * world).
Variable handle : event -> St -> list arrival -> world -> step St R.
Hypothesis top_grows :
  forall s w s' w', top s w = Ok (s', w') -> extends w w'.
Hypothesis handle_grows :
  forall input s q w,
    match handle input s q w with
    | Continue _ w' => extends w w'
    | Finish o => extends w (world_of o)
    end.

Lemma wait_input_grows q : forall s w w0,
  extends w0 w -> extends w0 (world_of (wait_input at_screen top handle q s w)).
Proof.
induction q as [|[input|] q IH]; intros s w w0 H; cbn [wait_input].
- exact H.
- pose proof (handle_grows input s q w) as Hh.
  destruct (handle input s q w) as [s1 w1|o].
  + destruct (top s1 w1) as [[s2 w2]|e] eqn:Et.
    * apply IH. eapply extends_trans; [exact H|].
      eapply extends_trans; [exact Hh|]. eapply top_grows, Et.
    * cbn. eapply extends_trans; eassumption.
  + eapply extends_trans; eassumption.
- apply IH. now apply extends_sleep.
Qed.

Lemma event_loop_grows q s w w0 :
  extends w0 w -> extends w0 (world_of (event_loop at_screen top handle q s w)).
Proof.
intros H. unfold event_loop.
destruct (top s w) as [[s1 w1]|e] eqn:Et; [|exact H].
apply wait_input_grows. eapply extends_trans; [exact H|]. eapply top_grows, Et.
Qed.
End Grows.

(** Solves the side conditions of [event_loop_grows] for a screen. *)
Ltac screen_grows :=
  intros;
  repeat match goal with
         | H : bind ?r _ = Ok _ |- _ => destruct r eqn:?; cbn [bind] in H
         | H : Ok _ = Ok _ |- _ => injection H as <- <-
         | H : (if ?b then _ else _) = Ok _ |- _ => destruct b
         | H : Raise _ = Ok _ |- _ => discriminate H
         | |- context [match ?i with Up => _ | _ => _ end] => destruct i
         | |- context [attempt ?r _ _] => destruct r; cbn [attempt]
         | |- context [if ?b then _ else _] => destruct b
         | |- context [let '(_, _) := ?p in _] => destruct p
         end;
  cbn [world_of]; auto with grows.

Lemma set_flash_grows q w w0 :
  extends w0 w -> extends w0 (world_of (set_flash q w)).
Proof.
apply event_loop_grows.
- unfold set_flash_top. screen_grows.
- unfold set_flash_handle. screen_grows.
Qed.

Lemma set_24h_grows q w w0 :
  extends w0 w -> extends w0 (world_of (set_24h q w)).
Proof.
apply event_loop_grows.
- unfold set_24h_top. screen_grows.
- unfold set_24h_handle. screen_grows.
Qed.

Lemma set_timezone_grows q w w0 :
  extends w0 w -> extends w0 (world_of (set_timezone q w)).
Proof.
intros H. unfold set_timezone.
destruct (list_index _ _); [|exact H].
revert H. apply event_loop_grows.
- unfold set_timezone_top. screen_grows.
- unfold set_timezone_handle. screen_grows.
Qed.

Lemma select_ssid_grows wifi q w w0 :
  extends w0 w -> extends w0 (world_of (select_ssid wifi q w)).
Proof.
apply event_loop_grows.
- unfold select_top. screen_grows.
- unfold select_handle. screen_grows.
Qed.

Lemma enter_password_grows ssid q w w0 :
  extends w0 w -> extends w0 (world_of (enter_password ssid q w)).
Proof.
apply event_loop_grows.
- unfold entry_top. screen_grows.
- unfold entry_handle. screen_grows.
Qed.

Lemma connect_grows env ssid pw w w0 :
  extends w0 w -> extends w0 (connect env ssid pw w).
Proof.
intros H. unfold connect.
destruct (nmcli_add env ssid pw) as [rc|]; [|auto with grows].
destruct (negb (rc =? 0)); [auto with grows|].
destruct (nmcli_up env ssid) as [rc'|]; [|auto with grows].
destruct (rc' =? 0); auto with grows.
Qed.

Lemma set_wifi_grows env q w w0 :
  extends w0 w -> extends w0 (world_of (set_wifi env q w)).
Proof.
intros H. unfold set_wifi.
destruct (nmcli_list env); [|cbn; auto with grows].
apply and_then_grows; [apply select_ssid_grows; auto with grows|].
intros ssid q1 w1 H1.
apply and_then_grows; [apply enter_password_grows; auto with grows|].
intros pw q2 w2 H2. cbn. now apply connect_grows.
Qed.

Lemma display_ip_address_grows env q w w0 :
  extends w0 w -> extends w0 (world_of (display_ip_address env q w)).
Proof.
intros H. unfold display_ip_address, get_wlan0_ip.
destruct (wlan0_inet env); cbn [or_raise]; [|cbn; auto with grows].
apply event_loop_grows; [| |auto with grows].
- unfold ip_top. screen_grows.
- unfold ip_handle. screen_grows.
Qed.

Lemma back_to_clock_grows o w :
  extends w (world_of o) ->
  match back_to_clock o with
  | Continue _ w' => extends w w'
  | Finish o' => extends w (world_of o')
  end.
Proof. intros H. destruct o; exact H. Qed.

Lemma menu_loop_grows env q w w0 :
  extends w0 w -> extends w0 (world_of (menu_loop env q w)).
Proof.
apply event_loop_grows.
- unfold menu_top. screen_grows.
- intros input s q' w'. unfold menu_handle.
  destruct input; try solve [screen_grows].
  destruct (getitem menu_items s) as [name|]; cbn [attempt world_of];
    [|apply extends_refl].
  repeat match goal with
         | |- context [if ?b then _ else _] => destruct b
         end;
    first [ apply back_to_clock_grows;
            first [ apply set_flash_grows | apply set_24h_grows
                  | apply set_timezone_grows | apply set_wifi_grows
                  | apply display_ip_address_grows ];
            apply extends_refl
          | apply extends_refl ].
Qed.

Lemma drain_grows q : forall v w w0,
  extends w0 w -> extends w0 (drain q v w).2.
Proof.
induction q as [|[input|] q IH]; intros v w w0 H; cbn [drain snd]; [exact H| |exact H].
destruct input; apply IH; auto with grows.
Qed.

Lemma main_iteration_grows env t q v w w0 :
  extends w0 w -> extends w0 (world_of (main_iteration env t q v w)).
Proof.
intros H. unfold main_iteration. apply and_then_grows.
- destruct (state v); [|exact H]. unfold clock_pass, display_time.
  destruct (or_raise _ _); cbn [bind world_of]; [|auto with grows].
  pose proof (drain_grows q v
    (emit (display (with_colon (shown_colon (settings w) a)
                      (with_colon (flash_colon (settings w) && (epoch t mod 2 =? 0))
                         (disp w)))
             (time_text (settings w) a))
       (with_disp (with_colon (shown_colon (settings w) a)
                     (with_colon (flash_colon (settings w) && (epoch t mod 2 =? 0))
                        (disp w)))
          (with_disp (with_colon (flash_colon (settings w) && (epoch t mod 2 =? 0))
                        (disp w)) w))) w0) as Hd.
  cbn [settings with_disp disp].
  destruct (drain q v _) as [[v1 q1] w1]. cbn [snd world_of] in *.
  apply Hd. auto with grows.
- intros v1 q1 w1 H1. destruct (state v1); [exact H1|].
  unfold menu_pass. apply and_then_grows.
  + apply menu_loop_grows. auto with grows.
  + intros st q2 w2 H2. unfold countdown.
    destruct (0 <? save_time _); [destruct (_ =? 0)|]; cbn; auto with grows.
Qed.

Lemma main_loop_grows env ticks : forall q v w w0,
  extends w0 w -> extends w0 (world_of (main_loop env ticks q v w)).
Proof.
induction ticks as [|t ticks IH]; intros q v w w0 H; cbn [main_loop].
- exact H.
- apply and_then_grows; [now apply main_iteration_grows|].
  intros v1 q1 w1 H1. now apply IH.
Qed.

(** ** Loading the settings at startup *)

(** C9: with a missing or an unparseable settings file the constructor
    leaves all four fields at their defaults and dumps the defaults at once;
    that dump is the first effect of the program, ahead of every bus write
    of the display and so of every render, however the run goes on; where
    the file can be written it then holds the defaults, and loading it
    again gives them back. *)
Theorem load_missing_or_malformed fs :
  content fs = None \/ content fs = Some Unparseable ->
  let '(s, fs', out) := ClockSettings_init fs in
  s = default_settings
  /\ out = [FileDump (dumped default_settings)]
  /\ (exists hw,
        trace (startup fs).2 = FileDump (dumped default_settings) :: hw
        /\ settings (startup fs).2 = default_settings
        /\ Forall (fun e => is_bus_write e = true) hw)
  /\ (forall env ticks q, exists later,
        trace (world_of (main env fs ticks q))
          = FileDump (dumped default_settings) :: later)
  /\ (writable fs = true ->
      content fs' = Some (dumped default_settings)
      /\ ClockSettings_init fs' = (default_settings, fs', [])).
Proof.
intros H.
assert (E : ClockSettings_init fs =
            (default_settings, (save default_settings fs).1,
             [FileDump (dumped default_settings)])).
{ unfold ClockSettings_init, load. destruct H as [-> | ->]; reflexivity. }
assert (S : exists hw,
          trace (startup fs).2 = FileDump (dumped default_settings) :: hw
          /\ settings (startup fs).2 = default_settings
          /\ Forall (fun e => is_bus_write e = true) hw).
{ unfold startup. rewrite E. cbn.
  eexists. split; [reflexivity|]. split; [reflexivity|].
  repeat constructor. }
rewrite E. split; [reflexivity|]. split; [reflexivity|].
split; [exact S|]. split.
- intros env ticks q. destruct S as (hw & Htr & _).
  unfold main. destruct (startup fs) as [v w]. cbn [snd] in Htr.
  destruct (main_loop_grows env ticks q v w w (extends_refl w)) as [out Hout].
  exists (hw ++ out). now rewrite Hout, Htr.
- intros Hw. split.
  + now apply save_content.
  + apply load_dumped. now apply save_content.
Qed.

Lemma load_missing_or_malformed_witness :
  let fs := {| content := Some Unparseable; writable := true |} in
  (content fs = None \/ content fs = Some Unparseable)
  /\ (ClockSettings_init fs).1.1 = default_settings.
Proof.
split.
- right; reflexivity.
- exact (proj1 (load_missing_or_malformed
                  {| content := Some Unparseable; writable := true |}
                  (or_intror eq_refl))).
Defined.

(** * Further properties of the code *)

(** ** The settings file *)

(** X1: what [save] writes, [load] reads back: after a successful save a
    load gives the saved settings whatever was in memory before, and writes
    nothing; a save that cannot open the file leaves the file as it was; a
    parseable file decides the loaded settings alone, each absent key
    giving its default. *)
Theorem save_then_load s s0 fs :
  (writable fs = true ->
     load s0 (save s fs).1 = (s, (save s fs).1, []))
  /\ (writable fs = false -> (save s fs).1 = fs)
  /\ (forall b tz h f s1,
        content fs = Some (Object b tz h f) ->
        load s0 fs = load s1 fs
        /\ (load s0 fs).1.2 = fs /\ (load s0 fs).2 = []
        /\ (b = None -> brightness (load s0 fs).1.1 = 0)
        /\ (tz = None -> timezone (load s0 fs).1.1 = py "America/Chicago")
        /\ (h = None -> hour_24 (load s0 fs).1.1 = false)
        /\ (f = None -> flash_colon (load s0 fs).1.1 = true)).
Proof.
split; [|split].
- intros Hw. apply load_dumped. now apply save_content.
- intros Hw. unfold save. cbn. now rewrite Hw.
- intros b tz h f s1 E. unfold load. rewrite E. cbn.
  repeat split; intros ->; reflexivity.
Qed.

Lemma save_then_load_witness :
  load default_settings
       (save (with_brightness 9 default_settings)
             {| content := Some Unparseable; writable := true |}).1
  = (with_brightness 9 default_settings,
     (save (with_brightness 9 default_settings)
           {| content := Some Unparseable; writable := true |}).1, []).
Proof.
exact (proj1 (save_then_load (with_brightness 9 default_settings) default_settings
                {| content := Some Unparseable; writable := true |}) eq_refl).
Defined.

(** ** Glyphs and frames *)

Lemma dict_get_bounds (d : list (char * Z)) lo hi c default :
  Forall (fun kv => lo <= kv.2 < hi) d -> lo <= default < hi ->
  lo <= dict_get d c default < hi.
Proof.
intros Hd Hdef. induction Hd as [|[k v] d Hv _ IH]; cbn; [exact Hdef|].
destruct (N.eqb k c); [exact Hv|exact IH].
Qed.

Lemma dict_get_missing {V} (d : list (char * V)) c default :
  ~ In c (map fst d) -> dict_get d c default = default.
Proof.
induction d as [|[k v] d IH]; cbn; intros H; [reflexivity|].
destruct (N.eqb_spec k c) as [->|_]; [tauto|]. apply IH. tauto.
Qed.

Lemma seg14_values_checked :
  forallb (fun kv : char * Z => (0 <=? kv.2) && (kv.2 <? 65536)) Seg14._SEG14 = true.
Proof. vm_compute. reflexivity. Qed.

Lemma seg14_value_range c : 0 <= dict_get Seg14._SEG14 c 0 < 65536.
Proof.
apply dict_get_bounds; [|lia].
apply List.Forall_forall. intros kv Hkv.
pose proof (proj1 (forallb_forall _ _) seg14_values_checked kv Hkv) as H.
apply andb_true_iff in H as [H1 H2].
apply Z.leb_le in H1. apply Z.ltb_lt in H2. lia.
Qed.

(** X2: [_encode_char_14seg] splits the 14-segment value of a character
    into two bytes that put together give the value back; a character
    that is not in the table encodes as blank. *)
Theorem encode_14seg_bytes c :
  let '(low, high) := Seg14._encode_char_14seg c in
  0 <= low < 256 /\ 0 <= high < 256
  /\ low + 256 * high = dict_get Seg14._SEG14 c 0
  /\ Z.lor low (Z.shiftl high 8) = dict_get Seg14._SEG14 c 0
  /\ (~ In c (map fst Seg14._SEG14) -> (low, high) = (0, 0)).
Proof.
unfold Seg14._encode_char_14seg. cbv zeta.
pose proof (seg14_value_range c) as Hr.
set (val := dict_get Seg14._SEG14 c 0) in *.
assert (Elow : Z.land val 255 = val mod 256)
  by (change 255 with (Z.ones 8); now rewrite Z.land_ones by lia).
assert (Ehigh : Z.land (Z.shiftr val 8) 255 = val / 256).
{ change 255 with (Z.ones 8). rewrite Z.land_ones by lia.
  rewrite Z.shiftr_div_pow2 by lia. change (2 ^ 8) with 256.
  apply Z.mod_small. split; [apply Z.div_pos; lia|].
  apply Z.div_lt_upper_bound; lia. }
rewrite Elow, Ehigh.
pose proof (Z.mod_pos_bound val 256 ltac:(lia)).
pose proof (Z.div_mod val 256 ltac:(lia)) as Hdm.
assert (0 <= val / 256 < 256).
{ split; [apply Z.div_pos; lia|apply Z.div_lt_upper_bound; lia]. }
split; [lia|]. split; [lia|]. split; [lia|]. split.
- rewrite Z.shiftl_mul_pow2 by lia. change (2 ^ 8) with 256.
  rewrite <- Z.add_nocarry_lor.
  + lia.
  + apply Z.bits_inj'. intros n Hn. rewrite Z.land_spec, Z.bits_0.
    destruct (Z.lt_ge_cases n 8) as [Hlt|Hge].
    * replace (val / 256 * 256) with (Z.shiftl (val / 256) 8)
        by (rewrite Z.shiftl_mul_pow2 by lia; reflexivity).
      rewrite (Z.shiftl_spec_low _ _ _ Hlt). apply andb_false_r.
    * rewrite <- Elow. change 255 with (Z.ones 8).
      rewrite Z.land_spec, Z.ones_spec_high by lia.
      now rewrite andb_false_r.
- intros Hc. unfold val. rewrite dict_get_missing by exact Hc. reflexivity.
Qed.

Lemma padded_four (text : pystr) :
  exists a b c e, take 4 (text ++ py "    ") = [a; b; c; e].
Proof.
destruct text as [|a [|b [|c [|e text]]]]; cbn; eauto.
Qed.

Lemma seg14_frame colon a b c e :
  Seg14.build_frame colon [a; b; c; e]
  = [ 0;
      (Seg14._encode_char_14seg a).1; (Seg14._encode_char_14seg a).2;
      (Seg14._encode_char_14seg b).1;
      (if colon then Z.lor (Seg14._encode_char_14seg b).2 0x40
       else (Seg14._encode_char_14seg b).2);
      (Seg14._encode_char_14seg c).1; (Seg14._encode_char_14seg c).2;
      (Seg14._encode_char_14seg e).1; (Seg14._encode_char_14seg e).2;
      0; 0; 0; 0; 0; 0; 0; 0 ].
Proof. destruct colon; reflexivity. Qed.

(** X3: whatever text it is given, the [_write_four_chars] of clock.py
    makes one block write to register 0 with 16 data bytes: the low and
    high glyph bytes of the first four characters of the text padded with
    spaces, the colon flag or-ed into the high byte of the second, and
    zeros in the eight bytes after them. *)
Theorem write_four_chars_14seg d (text : pystr) :
  exists a b c e,
    take 4 (text ++ py "    ") = [a; b; c; e]
    /\ @_write_four_chars clock_driver d text
       = [I2CWriteBlock (bus d) (address d) 0
            [ (Seg14._encode_char_14seg a).1; (Seg14._encode_char_14seg a).2;
              (Seg14._encode_char_14seg b).1;
              (if colon d then Z.lor (Seg14._encode_char_14seg b).2 0x40
               else (Seg14._encode_char_14seg b).2);
              (Seg14._encode_char_14seg c).1; (Seg14._encode_char_14seg c).2;
              (Seg14._encode_char_14seg e).1; (Seg14._encode_char_14seg e).2;
              0; 0; 0; 0; 0; 0; 0; 0 ]].
Proof.
destruct (padded_four text) as (a & b & c & e & E).
exists a, b, c, e. split; [exact E|].
unfold _write_four_chars, frame_write. cbv zeta. rewrite E.
cbn [frame_of clock_driver]. rewrite seg14_frame. reflexivity.
Qed.

Lemma dict_get_true (d : list (char * bool)) c :
  dict_get d c false = true -> In (c, true) d.
Proof.
induction d as [|[k v] d IH]; cbn; [discriminate|].
destruct (N.eqb_spec k c) as [->|_]; intros H; [left; now rewrite H|right; auto].
Qed.

Lemma dict_get_map {V W} (f : V -> W) (d : list (char * V)) c default :
  f (dict_get d c default) = dict_get (map (fun kv => (kv.1, f kv.2)) d) c (f default).
Proof.
induction d as [|[k v] d IH]; cbn; [reflexivity|].
destruct (N.eqb k c); [reflexivity|exact IH].
Qed.

Lemma seg14_bit14_checked :
  forallb (fun kv : char * Z =>
             implb (Z.testbit kv.2 14)
                   (existsb (N.eqb kv.1) [ch "!"; ch "."; ch "?"]))
          Seg14._SEG14 = true.
Proof. vm_compute. reflexivity. Qed.

(** The glyphs that use the bit the colon is wired to. *)
Lemma seg14_bit14 c :
  Z.testbit (dict_get Seg14._SEG14 c 0) 14 = true
  <-> In c [ch "!"; ch "."; ch "?"].
Proof.
split.
- intros H.
  rewrite (dict_get_map (fun v => Z.testbit v 14)) in H.
  apply dict_get_true, in_map_iff in H as ([k v] & E & Hin).
  cbn [fst snd] in E. injection E as -> Hv.
  change (Z.testbit v 14 = true) in Hv.
  pose proof (proj1 (forallb_forall _ _) seg14_bit14_checked (c, v) Hin) as Hc.
  cbn [fst snd] in Hc. rewrite Hv in Hc. cbn [implb] in Hc.
  apply existsb_exists in Hc as (x & Hx & Ex).
  apply N.eqb_eq in Ex. now subst.
- cbn [In]. intros [<-|[<-|[<-|[]]]]; vm_compute; reflexivity.
Qed.

(** X4: in the frame [_write_four_chars] of clock.py sends, the colon bit
    is the colon flag or bit 14 of the glyph of the second character: with
    "!", "." or "?" in that place, and with no other character, the colon
    lights although the flag is off. *)
Theorem colon_bit_14seg d (text : pystr) :
  exists a b c e data,
    take 4 (text ++ py "    ") = [a; b; c; e]
    /\ @_write_four_chars clock_driver d text
       = [I2CWriteBlock (bus d) (address d) 0 data]
    /\ colon_bit data = colon d || Z.testbit (dict_get Seg14._SEG14 b 0) 14
    /\ (colon d = false ->
        (colon_bit data = true <-> In b [ch "!"; ch "."; ch "?"])).
Proof.
destruct (padded_four text) as (a & b & c & e & E).
exists a, b, c, e,
  [ (Seg14._encode_char_14seg a).1; (Seg14._encode_char_14seg a).2;
    (Seg14._encode_char_14seg b).1;
    (if colon d then Z.lor (Seg14._encode_char_14seg b).2 0x40
     else (Seg14._encode_char_14seg b).2);
    (Seg14._encode_char_14seg c).1; (Seg14._encode_char_14seg c).2;
    (Seg14._encode_char_14seg e).1; (Seg14._encode_char_14seg e).2;
    0; 0; 0; 0; 0; 0; 0; 0 ].
split; [exact E|]. split.
{ unfold _write_four_chars, frame_write. cbv zeta. rewrite E.
  cbn [frame_of clock_driver]. rewrite seg14_frame. reflexivity. }
assert (Hbit : colon_bit
  [ (Seg14._encode_char_14seg a).1; (Seg14._encode_char_14seg a).2;
    (Seg14._encode_char_14seg b).1;
    (if colon d then Z.lor (Seg14._encode_char_14seg b).2 0x40
     else (Seg14._encode_char_14seg b).2);
    (Seg14._encode_char_14seg c).1; (Seg14._encode_char_14seg c).2;
    (Seg14._encode_char_14seg e).1; (Seg14._encode_char_14seg e).2;
    0; 0; 0; 0; 0; 0; 0; 0 ]
  = colon d || Z.testbit (dict_get Seg14._SEG14 b 0) 14).
{ unfold colon_bit. cbn [nth].
  assert (Hhigh : Z.testbit (Seg14._encode_char_14seg b).2 6
                  = Z.testbit (dict_get Seg14._SEG14 b 0) 14).
  { unfold Seg14._encode_char_14seg. cbn [snd].
    rewrite Z.land_spec, Z.shiftr_spec by lia.
    change (Z.testbit 255 6) with true. now rewrite andb_true_r. }
  destruct (colon d); cbn [orb].
  - rewrite Z.lor_spec. change (Z.testbit 64 6) with true. apply orb_true_r.
  - exact Hhigh. }
split; [exact Hbit|].
intros Hc. rewrite Hbit, Hc. cbn [orb]. apply seg14_bit14.
Qed.

Lemma seg7_frame colon a b c e :
  Seg7.build_frame colon [a; b; c; e]
  = [ 0;
      Seg7._encode_char_7seg a; 0; Seg7._encode_char_7seg b; 0;
      (if colon then 0x02 else 0x00); 0;
      Seg7._encode_char_7seg c; 0; Seg7._encode_char_7seg e; 0;
      0; 0; 0; 0; 0; 0 ].
Proof. destruct colon; reflexivity. Qed.

(** X5: whatever text it is given, the [_write_four_chars] of smallclock.py
    makes one block write to register 0 with 16 data bytes: the glyphs of
    the first four characters of the padded text at offsets 0, 2, 6 and 8,
    the colon byte (2 or 0, by the flag alone) at offset 4, zeros
    elsewhere; a character outside the table shows as blank. *)
Theorem write_four_chars_7seg d (text : pystr) :
  exists a b c e,
    take 4 (text ++ py "    ") = [a; b; c; e]
    /\ @_write_four_chars smallclock_driver d text
       = [I2CWriteBlock (bus d) (address d) 0
            [ Seg7._encode_char_7seg a; 0; Seg7._encode_char_7seg b; 0;
              (if colon d then 0x02 else 0x00); 0;
              Seg7._encode_char_7seg c; 0; Seg7._encode_char_7seg e; 0;
              0; 0; 0; 0; 0; 0 ]]
    /\ (forall x, ~ In x (map fst Seg7._SEG7) -> Seg7._encode_char_7seg x = 0).
Proof.
destruct (padded_four text) as (a & b & c & e & E).
exists a, b, c, e. split; [exact E|]. split.
- unfold _write_four_chars, frame_write. cbv zeta. rewrite E.
  cbn [frame_of smallclock_driver]. rewrite seg7_frame. reflexivity.
- intros x Hx. unfold Seg7._encode_char_7seg. now apply dict_get_missing.
Qed.

(** ** Showing a text *)

Lemma sleep_total_cons e l :
  sleep_total (e :: l)
  = match e with Sleep ms => ms | _ => 0 end + sleep_total l.
Proof. destruct e; reflexivity. Qed.

Lemma sleep_total_app a b : sleep_total (a ++ b) = sleep_total a + sleep_total b.
Proof.
induction a as [|e a IH]; [reflexivity|].
cbn [app]. rewrite !sleep_total_cons, IH. lia.
Qed.

Lemma sleep_total_scroll {drv : Driver} d (f : nat -> pystr) l :
  sleep_total (flat_map (fun i => [frame_write d (f i); Sleep (scroll_delay d)]) l)
  = scroll_delay d * Z.of_nat (length l).
Proof.
induction l as [|i l IH]; [cbn; lia|].
cbn [flat_map]. rewrite sleep_total_app, IH, !sleep_total_cons.
unfold frame_write. cbn [length]. change (sleep_total []) with 0. lia.
Qed.

Lemma take_padded_short (text : pystr) :
  (length text <= 4)%nat ->
  take 4 (text ++ py "    ") = text ++ replicate (4 - length text) (ch " ").
Proof.
intros H.
destruct text as [|a [|b [|c [|e [|x text]]]]]; cbn in H |- *;
  try reflexivity; lia.
Qed.

Lemma display_at_once (drv : Driver) d (text : pystr) :
  (length text <= 4)%nat ->
  display d text = [frame_write d (take 4 (text ++ py "    "))].
Proof.
intros H. unfold display, _write_four_chars. cbv zeta.
destruct (Nat.leb_spec (length text) 4); [reflexivity|lia].
Qed.

(** X6: a text of at most four characters is shown at once: one block
    write of the text padded on the right with spaces, and no sleep. *)
Theorem display_short (drv : Driver) d (text : pystr) :
  (length text <= 4)%nat ->
  display d text
  = [frame_write d (text ++ replicate (4 - length text) (ch " "))]
  /\ length (text ++ replicate (4 - length text) (ch " ")) = 4%nat
  /\ sleep_total (display d text) = 0.
Proof.
intros H.
assert (D : display d text
            = [frame_write d (text ++ replicate (4 - length text) (ch " "))]).
{ rewrite display_at_once by exact H. now rewrite take_padded_short. }
split; [exact D|]. split.
- rewrite length_app, length_replicate. lia.
- rewrite D. reflexivity.
Qed.

Lemma display_short_witness :
  display {| bus := 1; address := 0x70; scroll_delay := 500; colon := false |}
          (py "IP")
  = [frame_write {| bus := 1; address := 0x70; scroll_delay := 500; colon := false |}
                 (py "IP  ")].
Proof.
exact (proj1 (display_short clock_driver
  {| bus := 1; address := 0x70; scroll_delay := 500; colon := false |}
  (py "IP") ltac:(change (2 <= 4)%nat; lia))).
Defined.

(** X7: on any text [display] ends with a frame write, so the display is
    never left waiting in a delay; a text of [n > 4] characters keeps the
    caller for [n - 4] scroll delays, and every effect of the call is a
    block write or a sleep of [scroll_delay]. *)
Theorem display_blocks_for (drv : Driver) d (text : pystr) :
  (exists s4, last (display d text) = Some (frame_write d s4))
  /\ sleep_total (display d text)
     = scroll_delay d * Z.of_nat (length text - 4)
  /\ Forall (fun e => is_block_write e = true \/ e = Sleep (scroll_delay d))
            (display d text).
Proof.
destruct (Nat.le_gt_cases (length text) 4) as [Hle|Hgt].
- pose proof (display_at_once drv d text Hle) as D.
  split; [|split].
  + rewrite D. eexists. reflexivity.
  + rewrite D. replace (length text - 4)%nat with 0%nat by lia.
    rewrite Z.mul_0_r. reflexivity.
  + rewrite D. repeat constructor.
- rewrite display_scroll by exact Hgt. split; [|split].
  + rewrite last_snoc. eexists. reflexivity.
  + rewrite sleep_total_app, sleep_total_scroll, length_seq. cbn. lia.
  + apply Forall_app. split; [|repeat constructor].
    apply Forall_flat_map, List.Forall_forall. intros i _.
    constructor; [left; reflexivity|].
    constructor; [right; reflexivity|constructor].
Qed.

(** ** Brightness commands *)

Lemma lor_dimming x : 0 <= x <= 15 -> Z.lor 0xE0 x = 0xE0 + x.
Proof.
intros H.
assert (E : x = 0 \/ x = 1 \/ x = 2 \/ x = 3 \/ x = 4 \/ x = 5 \/ x = 6 \/ x = 7
            \/ x = 8 \/ x = 9 \/ x = 10 \/ x = 11 \/ x = 12 \/ x = 13
            \/ x = 14 \/ x = 15) by lia.
repeat (destruct E as [->|E]; [reflexivity|]). subst. reflexivity.
Qed.

(** X8: both ways of setting the brightness send a dimming command in
    0xE0..0xEF.  [set_brightness] clamps the level to [0,15]; [_init_hw]
    keeps its low four bits instead, so the two agree exactly on the
    levels 0 to 15, and a level of 16 is full brightness for the one and
    the lowest for the other. *)
Theorem dimming_commands (drv : Driver) d level :
  set_brightness d level
  = [I2CWriteByte (bus d) (address d) (0xE0 + Z.max 0 (Z.min 15 level))]
  /\ _init_hw d level
     = [ I2CWriteByte (bus d) (address d) 0x21;
         I2CWriteByte (bus d) (address d) 0x81;
         I2CWriteByte (bus d) (address d) (0xE0 + level mod 16);
         I2CWriteBlock (bus d) (address d) 0 (replicate 16 0) ]
  /\ (0 <= level <= 15 ->
      Z.max 0 (Z.min 15 level) = level /\ level mod 16 = level)
  /\ Z.max 0 (Z.min 15 16) = 15 /\ 16 mod 16 = 0.
Proof.
split; [|split; [|split; [|split; reflexivity]]].
- unfold set_brightness. cbv zeta. rewrite lor_dimming by lia. reflexivity.
- unfold _init_hw, clear.
  change 15 with (Z.ones 4). rewrite Z.land_ones by lia. change (2 ^ 4) with 16.
  rewrite lor_dimming; [reflexivity|].
  pose proof (Z.mod_pos_bound level 16 ltac:(lia)). lia.
- intros H. split; [lia|]. apply Z.mod_small. lia.
Qed.

(** ** Brightness events in the clock state *)

Lemma brightness_sent d b :
  in_range b ->
  set_brightness d b = [I2CWriteByte (bus d) (address d) (0xE0 + b)].
Proof.
intros H. unfold in_range in H. unfold set_brightness. cbv zeta.
rewrite lor_dimming by lia. repeat f_equal. lia.
Qed.

(** What a drain puts on the bus, and what it leaves alone. *)
Lemma drain_effects q : forall v w,
  in_range (brightness (settings w)) ->
  in_range (brightness (settings (drain q v w).2))
  /\ files (drain q v w).2 = files w
  /\ exists out,
       trace (drain q v w).2 = trace w ++ out /\ Forall (dims (disp w)) out.
Proof.
induction q as [|[input|] q IH]; intros v w Hr; cbn [drain snd].
- split; [exact Hr|]. split; [reflexivity|]. exists []. rewrite app_nil_r.
  split; [reflexivity|constructor].
- assert (Hchange : forall s v1,
    in_range (brightness s) ->
    in_range (brightness (settings
      (drain q v1 (emit (set_brightness (disp (with_settings s w)) (brightness s))
                        (with_settings s w))).2))
    /\ files (drain q v1 (emit (set_brightness (disp (with_settings s w))
                                               (brightness s))
                               (with_settings s w))).2 = files w
    /\ exists out,
         trace (drain q v1 (emit (set_brightness (disp (with_settings s w))
                                                 (brightness s))
                                 (with_settings s w))).2 = trace w ++ out
         /\ Forall (dims (disp w)) out).
  { intros s v1 Hs.
    rewrite (brightness_sent (disp (with_settings s w)) (brightness s) Hs).
    destruct (IH v1 (emit [I2CWriteByte (bus (disp (with_settings s w)))
                                        (address (disp (with_settings s w)))
                                        (0xE0 + brightness s)]
                          (with_settings s w)) Hs) as (I1 & I2 & out & Ho & Hd).
    split; [exact I1|]. split; [exact I2|].
    cbn [trace emit with_settings disp] in Ho, Hd |- *.
    exists (I2CWriteByte (bus (disp w)) (address (disp w)) (0xE0 + brightness s) :: out).
    split; [rewrite Ho, <- app_assoc; reflexivity|].
    constructor; [now exists (brightness s)|exact Hd]. }
  unfold in_range in Hr.
  destruct input; cbv zeta.
  + apply Hchange, increase_brightness_range; lia.
  + apply Hchange, decrease_brightness_range; lia.
  + now apply IH.
  + now apply IH.
  + apply Hchange, toggle_brightness_range.
  + apply Hchange, increase_brightness_range; lia.
  + apply Hchange, decrease_brightness_range; lia.
- split; [exact Hr|]. split; [reflexivity|]. exists []. rewrite app_nil_r.
  split; [reflexivity|constructor].
Qed.

(** X9: draining the queue in the clock state keeps a brightness that is
    in [0,15] there, leaves the other settings, the display object and the
    settings file alone, and puts nothing on the bus but dimming commands;
    when it has sent any, the last one carries the brightness the settings
    hold afterwards and the deferred save is armed with 10. *)
Theorem drain_keeps q : forall v w,
  in_range (brightness (settings w)) ->
  let '(v', _, w') := drain q v w in
  in_range (brightness (settings w'))
  /\ timezone (settings w') = timezone (settings w)
  /\ hour_24 (settings w') = hour_24 (settings w)
  /\ flash_colon (settings w') = flash_colon (settings w)
  /\ disp w' = disp w /\ files w' = files w
  /\ exists out,
       trace w' = trace w ++ out
       /\ Forall (dims (disp w)) out
       /\ match last out with
          | None => brightness (settings w') = brightness (settings w)
                    /\ save_time v' = save_time v
          | Some e =>
              e = I2CWriteByte (bus (disp w)) (address (disp w))
                               (0xE0 + brightness (settings w'))
              /\ save_time v' = 10
          end.
Proof.
induction q as [|[input|] q IH]; intros v w Hr.
- cbn [drain]. do 6 (split; [first [assumption|reflexivity]|]).
  exists []. rewrite app_nil_r. split; [reflexivity|]. split; [constructor|].
  now split.
- assert (Hchange : forall s,
    in_range (brightness s) ->
    timezone s = timezone (settings w) -> hour_24 s = hour_24 (settings w) ->
    flash_colon s = flash_colon (settings w) ->
    let '(v', _, w') :=
      drain q {| state := state v; save_time := 10 |}
            (emit (set_brightness (disp (with_settings s w)) (brightness s))
                  (with_settings s w)) in
    in_range (brightness (settings w'))
    /\ timezone (settings w') = timezone (settings w)
    /\ hour_24 (settings w') = hour_24 (settings w)
    /\ flash_colon (settings w') = flash_colon (settings w)
    /\ disp w' = disp w /\ files w' = files w
    /\ exists out,
         trace w' = trace w ++ out
         /\ Forall (dims (disp w)) out
         /\ match last out with
            | None => brightness (settings w') = brightness (settings w)
                      /\ save_time v' = save_time v
            | Some e =>
                e = I2CWriteByte (bus (disp w)) (address (disp w))
                                 (0xE0 + brightness (settings w'))
                /\ save_time v' = 10
            end).
  { intros s Hs Ht Hh Hf.
    specialize (IH {| state := state v; save_time := 10 |}
                  (emit (set_brightness (disp (with_settings s w)) (brightness s))
                        (with_settings s w)) Hs).
    destruct (drain q _ _) as [[v' rest] w'].
    destruct IH as (I1 & I2 & I3 & I4 & I5 & I6 & out & Ho & Hd & Hl).
    cbn [settings disp files trace emit with_settings] in *.
    rewrite brightness_sent in Ho by exact Hs.
    do 6 (split; [congruence|]).
    exists (I2CWriteByte (bus (disp w)) (address (disp w)) (0xE0 + brightness s) :: out).
    split; [now rewrite Ho, <- app_assoc|]. split.
    - constructor; [now exists (brightness s)|exact Hd].
    - destruct out as [|e out]; cbn [last] in Hl |- *.
      + destruct Hl as [-> Hsv]. now split.
      + change (last (I2CWriteByte (bus (disp w)) (address (disp w))
                        (224 + brightness s) :: e :: out))
          with (last (e :: out)).
        destruct (last (e :: out)) eqn:El; [exact Hl|].
        now apply last_None in El. }
  unfold in_range in Hr.
  destruct input; cbn [drain]; cbv zeta.
  + apply Hchange; try reflexivity.
    apply increase_brightness_range; lia.
  + apply Hchange; try reflexivity.
    apply decrease_brightness_range; lia.
  + specialize (IH {| state := StMenu; save_time := save_time v |} w Hr).
    destruct (drain q _ w) as [[v' rest] w']. exact IH.
  + specialize (IH {| state := StMenu; save_time := save_time v |} w Hr).
    destruct (drain q _ w) as [[v' rest] w']. exact IH.
  + apply Hchange; unfold toggle_brightness;
      destruct (0 <? brightness (settings w)); try reflexivity;
      unfold in_range; cbn; lia.
  + apply Hchange; try reflexivity.
    apply increase_brightness_range; lia.
  + apply Hchange; try reflexivity.
    apply decrease_brightness_range; lia.
- cbn [drain]. do 6 (split; [first [assumption|reflexivity]|]).
  exists []. rewrite app_nil_r. split; [reflexivity|]. split; [constructor|].
  now split.
Qed.


Lemma drain_keeps_witness :
  in_range (brightness (settings (drain [Ev Up; Ev Up; Ev Enter; Ev Down; Idle; Ev Up]
                                        start_vars sample_world).2)).
Proof.
exact (proj1 (drain_keeps [Ev Up; Ev Up; Ev Enter; Ev Down; Idle; Ev Up]
                start_vars sample_world
                ltac:(unfold in_range; change (brightness _) with 0; lia))).
Defined.

(** ** The two toggle screens *)

Lemma set_flash_blind : queue_blind set_flash_handle.
Proof.
intros input s q q' w s1 w1. destruct input; cbn; try exact id. discriminate.
Qed.

Lemma set_24h_blind : queue_blind set_24h_handle.
Proof.
intros input s q q' w s1 w1. destruct input; cbn; try exact id. discriminate.
Qed.

Lemma with_flash_colon_same s : with_flash_colon (flash_colon s) s = s.
Proof. now destruct s. Qed.

Lemma with_hour_24_same s : with_hour_24 (hour_24 s) s = s.
Proof. now destruct s. Qed.

Lemma directions_cons e evs :
  directions (e :: evs) = ((if direction e then 1 else 0) + directions evs)%nat.
Proof. unfold directions. cbn. now destruct (direction e). Qed.

Lemma xorb_odd_step b e n :
  xorb (if direction e then negb b else b) (Nat.odd n)
  = xorb b (Nat.odd ((if direction e then 1 else 0) + n)).
Proof.
destruct (direction e); [|reflexivity].
change (1 + n)%nat with (S n). rewrite Nat.odd_succ, <- Nat.negb_odd.
now destruct b, (Nat.odd n).
Qed.

Lemma flash_advance evs : forall w,
  Forall (fun e => e <> Enter) evs ->
  exists w',
    advance set_flash_top set_flash_handle (map Ev evs) tt w = Some (tt, w')
    /\ settings w'
       = with_flash_colon
           (xorb (flash_colon (settings w)) (Nat.odd (directions evs))) (settings w)
    /\ files w' = files w.
Proof.
induction evs as [|e evs IH]; intros w H.
- exists w. split; [reflexivity|]. split; [|reflexivity].
  cbn. now rewrite xorb_false_r, with_flash_colon_same.
- inversion H as [|? ? He Hrest]; subst.
  assert (Hstep : exists w1,
    advance set_flash_top set_flash_handle (map Ev (e :: evs)) tt w
      = advance set_flash_top set_flash_handle (map Ev evs) tt w1
    /\ settings w1
       = with_flash_colon (if direction e then negb (flash_colon (settings w))
                           else flash_colon (settings w)) (settings w)
    /\ files w1 = files w).
  { destruct e; try congruence; cbn [map advance set_flash_handle set_flash_top];
      (eexists; split; [reflexivity|]; split; [|reflexivity]);
      cbn [direction]; rewrite ?with_flash_colon_same; reflexivity. }
  destruct Hstep as (w1 & -> & Hs1 & Hf1).
  destruct (IH w1 Hrest) as (w' & -> & Hs' & Hf').
  exists w'. split; [reflexivity|]. split; [|congruence].
  rewrite Hs', Hs1, directions_cons. cbn [flash_colon with_flash_colon].
  now rewrite xorb_odd_step.
Qed.

Lemma hour_advance evs : forall w,
  Forall (fun e => e <> Enter) evs ->
  exists w',
    advance set_24h_top set_24h_handle (map Ev evs) tt w = Some (tt, w')
    /\ settings w'
       = with_hour_24
           (xorb (hour_24 (settings w)) (Nat.odd (directions evs))) (settings w)
    /\ files w' = files w.
Proof.
induction evs as [|e evs IH]; intros w H.
- exists w. split; [reflexivity|]. split; [|reflexivity].
  cbn. now rewrite xorb_false_r, with_hour_24_same.
- inversion H as [|? ? He Hrest]; subst.
  assert (Hstep : exists w1,
    advance set_24h_top set_24h_handle (map Ev (e :: evs)) tt w
      = advance set_24h_top set_24h_handle (map Ev evs) tt w1
    /\ settings w1
       = with_hour_24 (if direction e then negb (hour_24 (settings w))
                       else hour_24 (settings w)) (settings w)
    /\ files w1 = files w).
  { destruct e; try congruence; cbn [map advance set_24h_handle set_24h_top];
      (eexists; split; [reflexivity|]; split; [|reflexivity]);
      cbn [direction]; rewrite ?with_hour_24_same; reflexivity. }
  destruct Hstep as (w1 & -> & Hs1 & Hf1).
  destruct (IH w1 Hrest) as (w' & -> & Hs' & Hf').
  exists w'. split; [reflexivity|]. split; [|congruence].
  rewrite Hs', Hs1, directions_cons. cbn [hour_24 with_hour_24].
  now rewrite xorb_odd_step.
Qed.

(** X10: on the FLASH screen and on the 24H screen each direction event
    flips the flag and nothing else, so after any events without a confirm
    the flag is flipped exactly when their number of directions is odd, and
    the file is as it was; a confirm then saves the settings as they are at
    that point and returns with the rest of the queue untouched. *)
Theorem toggle_screens evs rest w :
  Forall (fun e => e <> Enter) evs ->
  (exists w1,
     set_flash (map Ev evs) w = Waiting FlashSetting w1
     /\ set_flash (map Ev evs ++ Ev Enter :: rest) w = Done tt rest (save_settings w1)
     /\ settings w1
        = with_flash_colon
            (xorb (flash_colon (settings w)) (Nat.odd (directions evs))) (settings w)
     /\ files w1 = files w)
  /\ (exists w1,
        set_24h (map Ev evs) w = Waiting HourFormatSetting w1
        /\ set_24h (map Ev evs ++ Ev Enter :: rest) w = Done tt rest (save_settings w1)
        /\ settings w1
           = with_hour_24
               (xorb (hour_24 (settings w)) (Nat.odd (directions evs))) (settings w)
        /\ files w1 = files w).
Proof.
intros H. split.
- destruct (flash_advance evs
              (show (py "FLASH  " ++ (if flash_colon (settings w) then py "On"
                                      else py "Off")) w) H)
    as (w1 & Hadv & Hs & Hf).
  exists w1. unfold set_flash, event_loop. cbn [set_flash_top].
  split; [|split; [|split; [exact Hs|exact Hf]]].
  + exact (wait_input_advance (fun _ => FlashSetting) _ _ set_flash_blind
             _ _ _ _ _ Hadv).
  + rewrite (wait_input_app _ _ _ set_flash_blind _ _ _ _ _ _ Hadv). reflexivity.
- destruct (hour_advance evs
              (show (if hour_24 (settings w) then py "24" else py "12") w) H)
    as (w1 & Hadv & Hs & Hf).
  exists w1. unfold set_24h, event_loop. cbn [set_24h_top].
  split; [|split; [|split; [exact Hs|exact Hf]]].
  + exact (wait_input_advance (fun _ => HourFormatSetting) _ _ set_24h_blind
             _ _ _ _ _ Hadv).
  + rewrite (wait_input_app _ _ _ set_24h_blind _ _ _ _ _ _ Hadv). reflexivity.
Qed.

Lemma toggle_screens_witness :
  exists w1,
    set_24h (map Ev [Up; Plus; Left; Right] ++ Ev Enter :: [Ev Up]) sample_world
      = Done tt [Ev Up] (save_settings w1)
    /\ settings w1 = with_hour_24 true default_settings.
Proof.
destruct (toggle_screens [Up; Plus; Left; Right] [Ev Up] sample_world
            ltac:(repeat constructor; discriminate))
  as (_ & w1 & _ & H2 & H3 & _).
exists w1. split; [exact H2|exact H3].
Defined.

(** ** Moving through the menu *)

Lemma menu_blind env : queue_blind (menu_handle env).
Proof.
intros input s q q' w s1 w1.
destruct input; cbn [menu_handle]; try exact id; try discriminate.
unfold attempt. destruct (getitem menu_items s) as [name|]; [|exact id].
repeat match goal with
       | |- context [if ?b then _ else _] => destruct b
       end; try exact id;
  unfold back_to_clock; discriminate.
Qed.

Lemma menu_step_range i e : 0 <= i < 5 -> 0 <= menu_step i e < 5.
Proof. intros H. destruct e; cbn; try lia; apply Z.mod_pos_bound; lia. Qed.

Lemma menu_top_in_bounds i w :
  0 <= i < 5 -> exists name, menu_top i w = Ok (i, show name w).
Proof.
intros H. destruct (getitem_in_bounds menu_items i H) as (name & Hname & _).
exists name. unfold menu_top. now rewrite Hname.
Qed.

Lemma menu_advance env evs : forall i w,
  0 <= i < 5 -> Forall is_direction evs ->
  exists w',
    advance menu_top (menu_handle env) (map Ev evs) i w
      = Some (fold_left menu_step evs i, w')
    /\ settings w' = settings w /\ files w' = files w /\ disp w' = disp w.
Proof.
induction evs as [|e evs IH]; intros i w Hi H.
- exists w. now repeat split.
- inversion H as [|? ? He Hrest]; subst.
  pose proof (menu_step_range i e Hi) as Hr.
  assert (Hh : menu_handle env e i (map Ev evs) w = Continue (menu_step i e) w).
  { destruct He as [->|[->|[->| ->]]]; reflexivity. }
  destruct (menu_top_in_bounds (menu_step i e) w Hr) as [name Hname].
  destruct (IH (menu_step i e) (show name w) Hr Hrest) as (w' & Hadv & Hs & Hf & Hd).
  exists w'. cbn [map advance fold_left]. rewrite Hh, Hname, Hadv.
  now repeat split.
Qed.

Lemma menu_fold_next nexts : forall i,
  0 <= i < 5 -> Forall is_next nexts ->
  fold_left menu_step nexts i = (i + Z.of_nat (length nexts)) mod 5.
Proof.
induction nexts as [|e nexts IH]; intros i Hi Hn.
- cbn. rewrite Z.add_0_r, Z.mod_small; lia.
- inversion Hn as [|? ? He Hrest]; subst.
  cbn [fold_left length]. rewrite IH.
  + assert (E : menu_step i e = (i + 1) mod 5) by (destruct He; subst; reflexivity).
    rewrite E, Zplus_mod_idemp_l. f_equal. lia.
  + now apply menu_step_range.
  + exact Hrest.
Qed.

Lemma fold_menu_range evs : forall i,
  0 <= i < 5 -> 0 <= fold_left menu_step evs i < 5.
Proof.
induction evs as [|e evs IH]; intros i Hi; [exact Hi|].
cbn. apply IH. now apply menu_step_range.
Qed.

(** X11: in the menu, direction events only move the selection: it stays
    one of the five items, the loop never raises, and settings, display
    object and file are untouched; five "next" events come back to the same
    item; any event that is neither a direction nor confirm leaves the menu
    for the clock state with the rest of the queue untouched. *)
Theorem menu_navigation env evs rest w :
  Forall is_direction evs ->
  let item := fold_left menu_step evs 0 in
  0 <= item < len menu_items
  /\ (exists w1,
        menu_loop env (map Ev evs) w = Waiting (MenuList item) w1
        /\ settings w1 = settings w /\ files w1 = files w /\ disp w1 = disp w
        /\ forall x, x = Plus \/ x = Minus ->
             menu_loop env (map Ev evs ++ Ev x :: rest) w = Done StClock rest w1)
  /\ (forall nexts,
        length nexts = length menu_items -> Forall is_next nexts ->
        fold_left menu_step (evs ++ nexts) 0 = item).
Proof.
intros H item.
assert (Hitem : 0 <= item < 5) by (apply fold_menu_range; lia).
split; [exact Hitem|]. split.
- destruct (menu_top_in_bounds 0 w ltac:(lia)) as [name Hname].
  destruct (menu_advance env evs 0 (show name w) ltac:(lia) H)
    as (w1 & Hadv & Hs & Hf & Hd).
  exists w1. unfold menu_loop, event_loop. rewrite Hname.
  split; [|split; [exact Hs|split; [exact Hf|split; [exact Hd|]]]].
  + exact (wait_input_advance MenuList _ _ (menu_blind env) _ _ _ _ _ Hadv).
  + intros x Hx.
    rewrite (wait_input_app _ _ _ (menu_blind env) _ _ _ _ _ _ Hadv).
    destruct Hx as [-> | ->]; reflexivity.
- intros nexts Hlen Hn. rewrite fold_left_app. fold item.
  rewrite menu_fold_next by assumption. rewrite Hlen.
  change (Z.of_nat (length menu_items)) with (1 * 5).
  rewrite Z.mod_add by lia. now apply Z.mod_small.
Qed.

Lemma menu_navigation_witness :
  exists w1,
    menu_loop sample_env (map Ev [Right; Right; Down]) sample_world
      = Waiting (MenuList 1) w1.
Proof.
destruct (menu_navigation sample_env [Right; Right; Down] [] sample_world)
  as (_ & (w1 & H1 & _) & _).
- repeat (constructor; [unfold is_direction; auto|]). constructor.
- exists w1. exact H1.
Defined.

(** ** Zones the program does not know *)

Lemma list_index_none x l : ~ In x l -> list_index x l = None.
Proof.
induction l as [|y l IH]; cbn; intros H; [reflexivity|].
unfold pystr_eqb. destruct (bool_decide_reflect (y = x)) as [->|_]; [tauto|].
rewrite IH by tauto. reflexivity.
Qed.

(** X12: with a stored zone that is not one of the seven, [set_timezone]
    raises ValueError before it shows or reads anything, and confirming the
    ZONE item ends the menu loop in that exception, with nothing saved. *)
Theorem set_timezone_unknown_zone env q w :
  ~ In (timezone (settings w)) (map snd zones) ->
  set_timezone q w = Raised ValueError w
  /\ menu_handle env Enter 2 q w = Finish (Raised ValueError w)
  /\ menu_loop env (Ev Right :: Ev Right :: Ev Enter :: q) w
     = Raised ValueError
         (show (py "ZONE") (show (py "24H") (show (py "FLASH") w))).
Proof.
intros H.
assert (E : forall w', settings w' = settings w ->
                       set_timezone q w' = Raised ValueError w').
{ intros w' Hs. unfold set_timezone. rewrite Hs.
  now rewrite list_index_none by exact H. }
split; [now apply E|]. split.
- unfold menu_handle. change (getitem menu_items 2) with (@Ok pystr (py "ZONE")).
  cbn [attempt].
  change (pystr_eqb (py "ZONE") (py "FLASH")) with false.
  change (pystr_eqb (py "ZONE") (py "24H")) with false.
  change (pystr_eqb (py "ZONE") (py "ZONE")) with true.
  cbn iota. unfold back_to_clock. now rewrite E.
- unfold menu_loop, event_loop.
  change (menu_top 0 w) with (Ok (0, show (py "FLASH") w)).
  cbn [wait_input menu_handle].
  change (py_mod (0 + 1) (len menu_items)) with (Ok 1). cbn [attempt].
  change (menu_top 1 (show (py "FLASH") w))
    with (Ok (1, show (py "24H") (show (py "FLASH") w))).
  cbn iota beta.
  change (py_mod (1 + 1) (len menu_items)) with (Ok 2). cbn [attempt].
  change (menu_top 2 (show (py "24H") (show (py "FLASH") w)))
    with (Ok (2, show (py "ZONE") (show (py "24H") (show (py "FLASH") w)))).
  cbn iota beta.
  change (getitem menu_items 2) with (@Ok pystr (py "ZONE")).
  cbn [attempt].
  change (pystr_eqb (py "ZONE") (py "FLASH")) with false.
  change (pystr_eqb (py "ZONE") (py "24H")) with false.
  change (pystr_eqb (py "ZONE") (py "ZONE")) with true.
  cbn iota. unfold back_to_clock. now rewrite E.
Qed.

Lemma set_timezone_unknown_zone_witness :
  set_timezone [Ev Up] (with_settings (with_timezone (py "Europe/Paris") default_settings)
                                      sample_world)
  = Raised ValueError
      (with_settings (with_timezone (py "Europe/Paris") default_settings) sample_world).
Proof.
refine (proj1 (set_timezone_unknown_zone sample_env [Ev Up]
          (with_settings (with_timezone (py "Europe/Paris") default_settings)
                         sample_world) _)).
vm_compute. intuition discriminate.
Defined.

(** X13: when [pytz] does not know the stored zone name, a pass of the
    main loop in the clock state raises before anything is written to the
    display or read from the queue, and the main loop ends there. *)
Theorem unknown_zone_stops_clock env t ticks q v w :
  state v = StClock ->
  localtime t (timezone (settings w)) = None ->
  exists w',
    main_iteration env t q v w = Raised UnknownTimeZoneError w'
    /\ main_loop env (t :: ticks) q v w = Raised UnknownTimeZoneError w'
    /\ trace w' = trace w /\ settings w' = settings w /\ files w' = files w.
Proof.
intros Hv Hnow.
assert (E : main_iteration env t q v w
            = Raised UnknownTimeZoneError
                (with_disp (with_colon (flash_colon (settings w) && (epoch t mod 2 =? 0))
                                       (disp w)) w)).
{ unfold main_iteration, clock_pass. rewrite Hv. unfold display_time.
  cbn [settings with_disp disp]. rewrite Hnow. reflexivity. }
eexists. split; [exact E|]. split; [|now repeat split].
cbn [main_loop]. rewrite E. reflexivity.
Qed.

Lemma unknown_zone_stops_clock_witness :
  exists w',
    main_iteration sample_env {| epoch := 7; localtime := fun _ => None |}
                   [Ev Up] start_vars sample_world
    = Raised UnknownTimeZoneError w'.
Proof.
destruct (unknown_zone_stops_clock sample_env
            {| epoch := 7; localtime := fun _ => None |} [] [Ev Up]
            start_vars sample_world eq_refl eq_refl) as (w' & H & _).
exists w'. exact H.
Defined.

(** ** A pass that stays in the clock state *)

Lemma drain_state q : forall v w,
  Forall (fun e => e <> Left /\ e <> Right) (drained q) ->
  state (drain q v w).1.1 = state v.
Proof.
induction q as [|[input|] q IH]; intros v w H; cbn [drain]; try reflexivity.
cbn [drained] in H. inversion H as [|? ? [H1 H2] Hrest]; subst.
destruct input; try congruence; cbv zeta; now rewrite IH.
Qed.

(** X14: a pass of the main loop of clock.py that starts in the clock state
    and drains no "left" or "right" renders the time, sends the dimming
    commands of the brightness events, and returns in the clock state: it
    does not sleep to the next second and does not save, so the settings
    file is as it was whatever the brightness events did. *)
Theorem clock_pass_only env t q v w now :
  state v = StClock ->
  localtime t (timezone (settings w)) = Some now ->
  in_range (brightness (settings w)) ->
  Forall (fun e => e <> Left /\ e <> Right) (drained q) ->
  exists v' rest w' out,
    main_iteration env t q v w = Done v' rest w'
    /\ state v' = StClock
    /\ trace w'
       = trace w
         ++ display (with_colon (shown_colon (settings w) now) (disp w))
                    (time_text (settings w) now)
         ++ out
    /\ Forall (dims (disp w)) out
    /\ files w' = files w
    /\ in_range (brightness (settings w')).
Proof.
intros Hv Hnow Hr Hq.
unfold main_iteration, clock_pass. rewrite Hv. unfold display_time.
cbn [settings with_disp disp]. rewrite Hnow. cbn [or_raise bind].
set (d := with_colon (shown_colon (settings w) now)
            (with_colon (flash_colon (settings w) && (epoch t mod 2 =? 0)) (disp w))).
set (W := emit (display d (time_text (settings w) now))
               (with_disp d (with_disp _ w))).
pose proof (drain_state q v W Hq) as Hst.
pose proof (drain_effects q v W Hr) as Hinv.
destruct (drain q v W) as [[v' rest] w']. cbn [fst snd] in Hst, Hinv.
destruct Hinv as (I1 & I6 & out & Ho & Hd).
cbn [and_then]. rewrite Hst, Hv.
exists v', rest, w', out. split; [reflexivity|]. split; [congruence|].
split; [|split; [exact Hd|split; [exact I6|exact I1]]].
rewrite Ho. unfold W. cbn [trace emit]. now rewrite <- app_assoc.
Qed.

Lemma clock_pass_only_witness :
  exists v' rest w' out,
    main_iteration sample_env sample_tick [Ev Up; Ev Enter; Idle; Ev Right]
                   start_vars sample_world = Done v' rest w'
    /\ state v' = StClock
    /\ trace w'
       = trace sample_world
         ++ display (with_colon true (disp sample_world)) (py "1205")
         ++ out
    /\ files w' = files sample_world.
Proof.
destruct (clock_pass_only sample_env sample_tick [Ev Up; Ev Enter; Idle; Ev Right]
            start_vars sample_world {| hour := 0; minute := 5; second := 30 |}
            eq_refl eq_refl)
  as (v' & rest & w' & out & H1 & H2 & H3 & _ & H5 & _).
- unfold in_range. change (brightness _) with 0. lia.
- repeat (constructor; [split; discriminate|]). constructor.
- exists v', rest, w', out. now repeat split.
Defined.

(** ** The IP address screen *)







(** ** The list of networks *)

Lemma str_ltb_irrefl a : str_ltb a a = false.
Proof.
induction a as [|x a IH]; [reflexivity|]. cbn. now rewrite N.ltb_irrefl.
Qed.

Lemma str_ltb_trans a : forall b c,
  str_ltb a b = true -> str_ltb b c = true -> str_ltb a c = true.
Proof.
induction a as [|x a IH]; intros [|y b] [|z c] Hab Hbc; cbn in *;
  try discriminate; try reflexivity.
destruct (N.ltb_spec x y) as [Hxy|Hxy].
- destruct (N.ltb_spec y z) as [Hyz|Hyz].
  + destruct (N.ltb_spec x z); [reflexivity|lia].
  + destruct (N.ltb_spec z y); [discriminate|].
    assert (y = z) by lia. subst.
    destruct (N.ltb_spec x z); [reflexivity|lia].
- destruct (N.ltb_spec y x); [discriminate|].
  assert (x = y) by lia. subst.
  destruct (N.ltb_spec y z); [reflexivity|].
  destruct (N.ltb_spec z y); [discriminate|].
  eapply IH; eassumption.
Qed.

Lemma str_ltb_total a : forall b,
  str_ltb a b = false -> a <> b -> str_ltb b a = true.
Proof.
induction a as [|x a IH]; intros [|y b] Hab Hne; cbn in *;
  try discriminate; try congruence.
destruct (N.ltb_spec x y); [discriminate|].
destruct (N.ltb_spec y x); [reflexivity|].
assert (x = y) by lia. subst. apply IH; [exact Hab|congruence].
Qed.

Lemma insert_sorted_elem x l z :
  In z (insert_sorted x l) <-> z = x \/ In z l.
Proof.
induction l as [|y l IH]; cbn; [intuition|].
destruct (str_ltb x y); [cbn; intuition|].
unfold pystr_eqb. destruct (bool_decide_reflect (x = y)) as [->|Hne].
- cbn. intuition.
- cbn. rewrite IH. intuition.
Qed.

Lemma insert_sorted_ascending x l :
  ascending l -> ascending (insert_sorted x l).
Proof.
induction l as [|y l IH]; intros Hl; cbn [insert_sorted].
- cbn. split; [constructor|exact I].
- destruct Hl as [Hy Hl].
  destruct (str_ltb x y) eqn:Exy.
  + cbn [ascending]. split; [|now split].
    constructor; [exact Exy|].
    eapply Forall_impl; [exact Hy|]. intros z Hz. cbn in Hz.
    eapply str_ltb_trans; eassumption.
  + unfold pystr_eqb. destruct (bool_decide_reflect (x = y)) as [->|Hne].
    * now split.
    * cbn [ascending]. split; [|now apply IH].
      apply List.Forall_forall. intros z Hz.
      apply insert_sorted_elem in Hz as [->|Hz].
      -- now apply str_ltb_total.
      -- exact (proj1 (List.Forall_forall _ _) Hy z Hz).
Qed.

Lemma ascending_lookup l : forall i j a b,
  ascending l -> (i < j)%nat -> l !! i = Some a -> l !! j = Some b ->
  str_ltb a b = true.
Proof.
induction l as [|x l IH]; intros i j a b Hl Hij Ha Hb; [discriminate|].
destruct Hl as [Hx Hl]. destruct j as [|j]; [lia|].
destruct i as [|i].
- cbn in Ha, Hb. injection Ha as <-.
  apply (proj1 (List.Forall_forall _ _) Hx).
  apply list_elem_of_In. eapply list_elem_of_lookup_2. exact Hb.
- cbn in Ha, Hb. eapply (IH i j); eauto. lia.
Qed.

(** X16: the list of networks [set_wifi] selects from holds exactly the
    non-empty lines of the scan, in strictly increasing order of code
    points: an SSID is in it once however often the scan lists it, an
    entry further down is greater than one further up, and there are no
    empty names. *)
Theorem wifi_list_sorted lines :
  let wifi := sorted_set (nonempty_lines lines) in
  (forall ssid, In ssid wifi <-> In ssid lines /\ ssid <> [])
  /\ ascending wifi
  /\ (forall i j a b, (i < j)%nat -> wifi !! i = Some a -> wifi !! j = Some b ->
        str_ltb a b = true /\ a <> b)
  /\ NoDup wifi.
Proof.
cbv zeta.
assert (Hel : forall l ssid, In ssid (sorted_set l) <-> In ssid l).
{ induction l as [|x l IH]; intros ssid; [reflexivity|].
  cbn. rewrite insert_sorted_elem, IH. intuition. }
assert (Hasc : forall l, ascending (sorted_set l)).
{ induction l as [|x l IH]; [exact I|]. cbn. now apply insert_sorted_ascending. }
assert (Hlt : forall i j a b, (i < j)%nat ->
          sorted_set (nonempty_lines lines) !! i = Some a ->
          sorted_set (nonempty_lines lines) !! j = Some b ->
          str_ltb a b = true /\ a <> b).
{ intros i j a b Hij Ha Hb.
  pose proof (ascending_lookup _ i j a b (Hasc _) Hij Ha Hb) as H.
  split; [exact H|]. intros ->. now rewrite str_ltb_irrefl in H. }
split; [|split; [apply Hasc|split; [exact Hlt|]]].
- intros ssid. rewrite Hel. unfold nonempty_lines.
  rewrite <- !list_elem_of_In, list_elem_of_filter. tauto.
- apply NoDup_alt. intros i j a Ha Hb.
  destruct (Nat.lt_trichotomy i j) as [Hij|[Hij|Hij]]; [|exact Hij|].
  + now destruct (Hlt i j a a Hij Ha Hb).
  + now destruct (Hlt j i a a Hij Hb Ha).
Qed.

(** ** The password that is returned *)







(** ** The automatic dimming of smallclock.py *)

Lemma auto_dim_keeps dark w :
  let w' := auto_dim dark w in
  files w' = files w /\ disp w' = disp w
  /\ timezone (settings w') = timezone (settings w)
  /\ hour_24 (settings w') = hour_24 (settings w)
  /\ flash_colon (settings w') = flash_colon (settings w)
  /\ (brightness (settings w) <> 0 -> brightness (settings w) <> 15 ->
      w' = w)
  /\ (brightness (settings w) = 0 \/ brightness (settings w) = 15 ->
      brightness (settings w') = 0 \/ brightness (settings w') = 15)
  /\ (w' = w
      \/ trace w' = trace w
                    ++ [I2CWriteByte (bus (disp w)) (address (disp w))
                                     (0xE0 + brightness (settings w'))]).
Proof.
unfold auto_dim.
destruct (Z.eqb_spec (brightness (settings w)) 0) as [E0|N0];
  destruct (Z.eqb_spec (brightness (settings w)) 15) as [E15|N15];
  destruct dark; cbn [andb negb];
  repeat split; try reflexivity; try congruence; try lia;
  try (intros; lia); try (now left); try (now right); auto.
Qed.

(** X18: the main loop of smallclock.py never writes the settings file and
    never changes zone, hour format or colon flashing; its automatic
    dimming only switches between 0 and 15, so a brightness other than
    those two stays as it is for good, and one of those two stays one of
    them. *)
Theorem smallclock_dimming ticks : forall last_minute w,
  let w' := pass_world (smallclock_loop ticks last_minute w) in
  files w' = files w
  /\ timezone (settings w') = timezone (settings w)
  /\ hour_24 (settings w') = hour_24 (settings w)
  /\ flash_colon (settings w') = flash_colon (settings w)
  /\ (brightness (settings w) <> 0 -> brightness (settings w) <> 15 ->
      brightness (settings w') = brightness (settings w))
  /\ (brightness (settings w) = 0 \/ brightness (settings w) = 15 ->
      brightness (settings w') = 0 \/ brightness (settings w') = 15).
Proof.
induction ticks as [|t ticks IH]; intros last_minute w; cbv zeta.
- cbn. repeat split; auto.
- cbn [smallclock_loop].
  assert (Hstep : forall p, smallclock_iteration t last_minute w = p ->
    files (pass_world p) = files w
    /\ timezone (settings (pass_world p)) = timezone (settings w)
    /\ hour_24 (settings (pass_world p)) = hour_24 (settings w)
    /\ flash_colon (settings (pass_world p)) = flash_colon (settings w)
    /\ (brightness (settings w) <> 0 -> brightness (settings w) <> 15 ->
        brightness (settings (pass_world p)) = brightness (settings w))
    /\ (brightness (settings w) = 0 \/ brightness (settings w) = 15 ->
        brightness (settings (pass_world p)) = 0
        \/ brightness (settings (pass_world p)) = 15)).
  { intros p <-. unfold smallclock_iteration, display_time. cbv zeta.
    cbn [settings with_disp disp].
    destruct (s_shown t (timezone (settings w))) as [now|];
      cbn [or_raise bind pass_world]; [|repeat split; auto].
    cbn [settings emit with_disp].
    destruct (s_checked t (timezone (settings w))) as [now'|];
      cbn [pass_world]; [|repeat split; auto].
    destruct (_ && _); cbn [pass_world files settings emit];
      [|repeat split; auto].
    match goal with |- context [auto_dim ?d ?W] =>
      pose proof (auto_dim_keeps d W) as (A1 & _ & A3 & A4 & A5 & A6 & A7 & _)
    end.
    cbn [settings files emit with_disp] in *.
    repeat split; try assumption.
    intros H0 H15. now rewrite (A6 H0 H15). }
  destruct (smallclock_iteration t last_minute w) as [lm w1|e w1] eqn:E;
    specialize (Hstep _ eq_refl); cbn [pass_world] in Hstep.
  + specialize (IH lm w1). cbv zeta in IH.
    destruct Hstep as (S1 & S2 & S3 & S4 & S5 & S6).
    destruct IH as (I1 & I2 & I3 & I4 & I5 & I6).
    repeat split; try congruence.
    * intros H0 H15. rewrite <- (S5 H0 H15). apply I5; rewrite (S5 H0 H15); assumption.
    * intros H. apply I6, S6, H.
  + exact Hstep.
Qed.

Lemma smallclock_dimming_witness :
  brightness (settings (pass_world
    (smallclock_loop
       [ {| s_epoch := 0;
            s_shown := fun _ => Some {| hour := 7; minute := 30; second := 0 |};
            s_checked := fun _ => Some {| hour := 7; minute := 30; second := 0 |};
            s_dark := false |} ]
       (-1) (with_settings (with_brightness 7 default_settings) sample_world))))
  = 7.
Proof.
refine (proj1 (proj2 (proj2 (proj2 (proj2 (smallclock_dimming _ (-1)
          (with_settings (with_brightness 7 default_settings) sample_world))))))
          _ _); discriminate.
Defined.

(** X19: on the 7-segment display of smallclock.py, for every valid time
    [display_time] writes one frame whose colon byte (offset 4) is 2 when
    colon flashing is off or the second is even and 0 otherwise, and whose
    digits are those of the text of the time. *)
Theorem colon_rule_7seg localtime disp settings now :
  localtime (timezone settings) = Some now ->
  valid_time now ->
  exists d a b c e,
    time_text settings now = [a; b; c; e]
    /\ @display_time smallclock_driver localtime disp settings
       = Ok (d, [I2CWriteBlock (bus disp) (address disp) 0
                   [ Seg7._encode_char_7seg a; 0; Seg7._encode_char_7seg b; 0;
                     (if negb (flash_colon settings) || (second now mod 2 =? 0)
                      then 0x02 else 0x00); 0;
                     Seg7._encode_char_7seg c; 0; Seg7._encode_char_7seg e; 0;
                     0; 0; 0; 0; 0; 0 ]])
    /\ colon d = negb (flash_colon settings) || (second now mod 2 =? 0).
Proof.
intros Hnow (Hh & Hm & _).
destruct (clock_text_frame (shown_hour settings now) (minute now) true
            (shown_hour_bounds settings now Hh) Hm) as (Hlen & _).
fold (time_text settings now) in Hlen.
destruct (time_text settings now) as [|a [|b [|c [|e [|x text]]]]] eqn:Et;
  try discriminate.
assert (Hc : shown_colon settings now
             = negb (flash_colon settings) || (second now mod 2 =? 0)).
{ unfold shown_colon. now destruct (flash_colon settings). }
exists (with_colon (shown_colon settings now) disp), a, b, c, e.
split; [reflexivity|]. split; [|exact Hc].
unfold display_time. rewrite Hnow. cbn [or_raise bind]. rewrite Et.
unfold display. cbn [length Nat.leb].
unfold _write_four_chars, frame_write. cbv zeta.
rewrite take_padded by reflexivity.
cbn [colon bus address with_colon frame_of smallclock_driver].
rewrite seg7_frame, Hc. reflexivity.
Qed.

Lemma colon_rule_7seg_witness :
  exists d data,
    @display_time smallclock_driver
      (fun _ => Some {| hour := 23; minute := 59; second := 59 |})
      (disp sample_world) default_settings
    = Ok (d, [I2CWriteBlock 1 0x70 0 data])
    /\ colon d = false.
Proof.
destruct (colon_rule_7seg (fun _ => Some {| hour := 23; minute := 59; second := 59 |})
            (disp sample_world) default_settings
            {| hour := 23; minute := 59; second := 59 |} eq_refl)
  as (d & a & b & c & e & _ & H & Hc).
- unfold valid_time; cbn; lia.
- exists d. eexists. split; [exact H|exact Hc].
Defined.
